(** * Remote Admin API: the HTTP control surface and its Connection Manager

    A shallow embedding of [src/api.py] (class [APIHandler]) and of the
    Connection Manager it drives.

    - Python values that travel through the handler are [pyval]s; a dict
      whose order is observable (a JSON body, [connection_handlers]) is an
      association list in insertion order, the dict returned by [parse_qs]
      is a [gmap].
    - A handler is a program [Prog response]: a tree of calls on the
      Connection Manager (methods and attribute reads) and on the clock,
      ending in the response it sends or in the exception that escapes it.
      [run] executes such a program against an implementation of the manager
      and records the calls that were made.
    - Functions of the Python library ([int], [urlparse], [parse_qs],
      [bytes.decode], [json.loads]) are the interface [PyLib]; [cpython] is a
      reference instance to evaluate the handlers with. *)

From Stdlib Require Import ZArith List Ascii String.
From Stdlib.Strings Require Import Byte.
From stdpp Require Import base option list strings gmap pretty.

Open Scope string_scope.
Open Scope Z_scope.

(** ** Python data *)

(** The exceptions that the modelled code can meet. An [except] clause of
    the handler names its exception exactly: [JSONDecodeError] and
    [UnicodeDecodeError] are subclasses of [ValueError] in Python, but
    neither is caught by a clause for the other. *)
Inductive exn : Type :=
| ValueError
| UnicodeDecodeError
| JSONDecodeError
| OverflowError
| MemoryError
| AlreadyActiveError
| BindError
| HandshakeRejectedError
| ConnectError
| NotConnectedError.

Inductive result (A : Type) : Type :=
| Ok (a : A)
| Err (e : exn).
Arguments Ok {A} a.
Arguments Err {A} e.

(** Values: what [json.loads] returns and [json.dumps] accepts. A float is
    written by a decimal literal that denotes it; no modelled code computes
    with one. *)
#[local] Unset Elimination Schemes.
Inductive pyval : Type :=
| VNone
| VBool (b : bool)
| VInt (z : Z)
| VFloat (literal : string)
| VStr (s : string)
| VList (l : list pyval)
| VDict (d : list (string * pyval)).
#[local] Set Elimination Schemes.

Definition pydict : Type := list (string * pyval).

(** [d.get(key, default)] *)
Fixpoint dict_get (d : pydict) (key : string) (default : pyval) : pyval :=
  match d with
  | [] => default
  | (k, v) :: d' => if String.eqb k key then v else dict_get d' key default
  end.

Definition bytes : Type := list byte.

(** Truthiness of the value [get_remote_screen] returns ([bytes] or [None]). *)
Definition truthy (data : option bytes) : bool :=
  match data with
  | Some (_ :: _) => true
  | _ => false
  end.

(** ** The Python library, as the handler uses it *)

(** The fields of [urlparse]'s result that the handler reads. *)
Record ParseResult : Type := { url_path : string; url_query : string }.

Class PyLib : Type := {
  (** [int(s)] for a [str]: [None] stands for [ValueError], the only
      exception it raises. *)
  py_int : string -> option Z;
  (** [urlparse(url)]; it raises [ValueError] on some malformed authorities. *)
  urlparse : string -> result ParseResult;
  (** [parse_qs(qs)]: a dict from names to the non-empty lists of their values. *)
  parse_qs : string -> gmap string (list string);
  (** [f.read(n)] on a buffered stream that holds the given bytes before its
      end: at most [n] of them, or all of them when [n] is -1. It raises for
      any other negative [n], for an [n] that is no index, and when [n]
      bytes cannot be allocated. *)
  file_read : bytes -> Z -> result bytes;
  (** [b.decode('utf-8')]: [None] stands for [UnicodeDecodeError]. *)
  utf8_decode : bytes -> option string;
  (** [json.loads(s)] *)
  json_loads : string -> result pyval
}.

(** Input events (§3): a tagged variant that carries nothing but its fields. *)
Inductive key_action : Type := KeyDown | KeyUp.

Inductive input_event : Type :=
| MouseEvent (x y buttons action : Z)
| KeyEvent (keycode : Z) (action : key_action).

(** ** Programs over the Connection Manager *)

(** What a handler can ask of its collaborators: the manager's methods, its
    attributes, and the clock. The index is the type of the answer. *)
Inductive Op : Type -> Type :=
| IsConnected : Op bool
| IsHosting : Op bool
| RemoteAddress : Op pyval
| HostId : Op pyval
| ConnectionHandlers : Op (list (pyval * pydict))
| GetRemoteScreen (quality : Z) : Op (option bytes)
| Connect (address host_id : string) : Op unit
| Disconnect : Op unit
| StartHosting (listen_address host_id : string) : Op unit
| StopHosting : Op unit
| SendMouseEvent (evt : input_event) : Op unit
| SendKeyboardEvent (evt : input_event) : Op unit
| TimeTime : Op pyval.

(** The attribute reads: they look at the manager's state directly. *)
Definition attribute_read {R} (op : Op R) : bool :=
  match op with
  | RemoteAddress | HostId | ConnectionHandlers => true
  | _ => false
  end.

Inductive Prog (A : Type) : Type :=
| Ret (a : A)
| Raise (e : exn)
| Call {R : Type} (op : Op R) (k : R -> Prog A).
Arguments Ret {A} a.
Arguments Raise {A} e.
Arguments Call {A R} op k.

Fixpoint bind {A B : Type} (p : Prog A) (f : A -> Prog B) : Prog B :=
  match p with
  | Ret a => f a
  | Raise e => Raise e
  | Call op k => Call op (fun r => bind (k r) f)
  end.

#[global] Instance Prog_ret : MRet Prog := @Ret.
#[global] Instance Prog_bind : MBind Prog := fun A B f p => bind p f.

Definition call {R} (op : Op R) : Prog R := Call op Ret.

(** A call as it is recorded: the operation, with its arguments. *)
Record call_record : Type := Called { call_type : Type; call_op : Op call_type }.
Arguments Called {call_type} call_op.

(** An implementation of the manager (and of the clock) over a state [S]:
    every operation answers or raises, and may change the state. *)
Class Manager (S : Type) : Type :=
  perform : forall R, Op R -> S -> result R * S.
Arguments perform {S _ R} op s.

Record outcome (S A : Type) : Type :=
  { returned : result A; final : S; calls : list call_record }.
Arguments returned {S A} o.
Arguments final {S A} o.
Arguments calls {S A} o.

Fixpoint run {S A : Type} `{Manager S} (p : Prog A) (s : S) : outcome S A :=
  match p with
  | Ret a => {| returned := Ok a; final := s; calls := [] |}
  | Raise e => {| returned := Err e; final := s; calls := [] |}
  | Call op k =>
      match perform op s with
      | (Ok r, s') =>
          let o := run (k r) s' in
          {| returned := returned o; final := final o;
             calls := Called op :: calls o |}
      | (Err e, s') =>
          {| returned := Err e; final := s'; calls := [Called op] |}
      end
  end.

(** Every call the program can make, on any path, satisfies [P]. *)
Fixpoint calls_only {A : Type} (P : forall R, Op R -> Prop) (p : Prog A) : Prop :=
  match p with
  | Ret _ | Raise _ => True
  | Call op k => P _ op /\ forall r, calls_only P (k r)
  end.

(** The quality a call hands to [get_remote_screen], if it is such a call. *)
Definition passed_quality {R} (op : Op R) : option Z :=
  match op with
  | GetRemoteScreen quality => Some quality
  | _ => None
  end.

(** The two questions the screenshot path may ask: whether there is a
    connection, and the screen itself. *)
Definition screen_query {R} (op : Op R) : bool :=
  match op with
  | IsConnected | GetRemoteScreen _ => true
  | _ => false
  end.

(** The commands of the control surface: the operations that change what
    the manager does, as opposed to its queries. *)
Definition command {R} (op : Op R) : bool :=
  match op with
  | Connect _ _ | Disconnect | StartHosting _ _ | StopHosting
  | SendMouseEvent _ | SendKeyboardEvent _ => true
  | _ => false
  end.

(** No path of the program ends in an exception of its own. *)
Fixpoint no_raise {A : Type} (p : Prog A) : Prop :=
  match p with
  | Ret _ => True
  | Raise _ => False
  | Call op k => forall r, no_raise (k r)
  end.

(** A manager whose queries always answer (its commands may still fail). *)
Definition answering (S : Type) `{Manager S} : Prop :=
  forall R (op : Op R) (s : S),
    command op = false -> exists r s', perform op s = (Ok r, s').

(** The program makes no call at all. *)
Definition silent {A : Type} (p : Prog A) : Prop :=
  match p with
  | Call _ _ => False
  | _ => True
  end.

(** ** The request handler *)

(** A response as the handler writes it: [send_response], the [send_header]s
    in order, and the body given to [wfile.write]. A JSON body is kept as the
    value handed to [json.dumps]. *)
Inductive body : Type :=
| JsonBody (data : pyval)
| BytesBody (data : bytes).

Record response : Type :=
  { status : Z; headers : list (string * string); content : body }.

(** The request as [BaseHTTPRequestHandler] presents it: the request target,
    the header fields, and the bytes that [rfile] yields before end of file. *)
Record request : Type :=
  { path : string; request_headers : list (string * string); rfile : bytes }.

(** The manager is one shared object; the handler holds a reference to it,
    or [None] when it was built without one. *)
Inductive manager_ref : Type := the_manager.

Record APIHandler : Type :=
  { connection_manager : option manager_ref; req : request }.

Definition lower_ascii (c : ascii) : ascii :=
  let n := nat_of_ascii c in
  if (65 <=? n)%nat && (n <=? 90)%nat then ascii_of_nat (n + 32) else c.

Fixpoint lower (s : string) : string :=
  match s with
  | EmptyString => EmptyString
  | String c s' => String (lower_ascii c) (lower s')
  end.

(** [self.headers.get(name)]: the first field of that name, compared without
    regard to case. *)
Fixpoint headers_get (hs : list (string * string)) (name : string) : option string :=
  match hs with
  | [] => None
  | (k, v) :: hs' =>
      if String.eqb (lower k) (lower name) then Some v else headers_get hs' name
  end.

(** [self.rfile.read(n)]: what the library's [read] makes of the bytes of
    the request. *)
Definition rfile_read `{PyLib} (r : request) (n : Z) : result bytes :=
  file_read (rfile r) n.

Definition send_json_response (data : pyval) (status : Z) : response :=
  {| status := status;
     headers := [("Content-Type", "application/json");
                 ("Access-Control-Allow-Origin", "*")];
     content := JsonBody data |}.

(** [do_OPTIONS]: the answer to a preflight request. No body is written:
    the content is the empty byte string. *)
Definition do_OPTIONS : response :=
  {| status := 200;
     headers := [("Access-Control-Allow-Origin", "*");
                 ("Access-Control-Allow-Methods", "GET, POST, OPTIONS");
                 ("Access-Control-Allow-Headers", "Content-Type")];
     content := BytesBody [] |}.

Definition error_body (msg : string) : pyval := VDict [("error", VStr msg)].

Definition manager_not_available : response :=
  send_json_response (error_body "Connection manager not available") 500.

Section Handler.
Context `{PyLib}.

Definition handle_status (self : APIHandler) : Prog response :=
  match connection_manager self with
  | None => mret manager_not_available
  | Some _ =>
      connected ← call IsConnected;
      hosting ← call IsHosting;
      remote_address ← call RemoteAddress;
      host_id ← call HostId;
      timestamp ← call TimeTime;
      mret (send_json_response
              (VDict [("connected", VBool connected);
                      ("hosting", VBool hosting);
                      ("remote_address", remote_address);
                      ("host_id", host_id);
                      ("timestamp", timestamp)]) 200)
  end.

Definition connection_entry (item : pyval * pydict) : pyval :=
  let '(addr, handler) := item in
  VDict [("address", addr);
         ("connected_time", dict_get handler "connected_time" (VInt 0))].

Definition handle_connections (self : APIHandler) : Prog response :=
  match connection_manager self with
  | None => mret manager_not_available
  | Some _ =>
      hosting ← call IsHosting;
      connections ←
        (if hosting : bool then
           items ← call ConnectionHandlers;
           mret (connection_entry <$> items)
         else mret []);
      mret (send_json_response (VDict [("connections", VList connections)]) 200)
  end.

(** The quality parameter: 70 unless the first value of [quality] is an
    integer, which is clamped between 1 and 100. *)
Definition screenshot_quality (query : gmap string (list string)) : Z :=
  match query !! "quality" with
  | Some (q :: _) =>
      match py_int q with
      | Some quality => Z.max 1 (Z.min 100 quality)
      | None => 70
      end
  | _ => 70
  end.

Definition image_response (screen_data : bytes) : response :=
  {| status := 200;
     headers := [("Content-Type", "image/jpeg");
                 ("Content-Length", pretty (length screen_data))];
     content := BytesBody screen_data |}.

Definition unable_to_get_screenshot : response :=
  send_json_response (error_body "Unable to get screenshot") 400.

Definition handle_screenshot (self : APIHandler)
    (query : gmap string (list string)) : Prog response :=
  match connection_manager self with
  | None => mret manager_not_available
  | Some _ =>
      let quality := screenshot_quality query in
      connected ← call IsConnected;
      if connected : bool then
        screen_data ← call (GetRemoteScreen quality);
        match screen_data with
        | Some (b :: data) => mret (image_response (b :: data))
        | _ => mret unable_to_get_screenshot
        end
      else mret unable_to_get_screenshot
  end.

(** The handlers whose bodies the source file does not hold (it ends inside
    [handle_system_info]): the router is embedded over any such bodies. *)
Class Elided : Type := {
  handle_system_info : APIHandler -> Prog response;
  handle_connect : APIHandler -> pyval -> Prog response;
  handle_disconnect : APIHandler -> Prog response;
  handle_start_hosting : APIHandler -> pyval -> Prog response;
  handle_stop_hosting : APIHandler -> Prog response;
  handle_mouse_event : APIHandler -> pyval -> Prog response;
  handle_keyboard_event : APIHandler -> pyval -> Prog response
}.
Context `{Elided}.

Definition raising {A : Type} (r : result A) : Prog A :=
  match r with
  | Ok a => Ret a
  | Err e => Raise e
  end.

Definition or_raise {A : Type} (e : exn) (o : option A) : Prog A :=
  match o with
  | Some a => Ret a
  | None => Raise e
  end.

Definition not_found : response :=
  send_json_response (error_body "Not found") 404.

Definition invalid_json : response :=
  send_json_response (error_body "Invalid JSON") 400.

Definition do_GET (self : APIHandler) : Prog response :=
  parsed_url ← raising (urlparse (path (req self)));
  let path := url_path parsed_url in
  let query := parse_qs (url_query parsed_url) in
  if String.eqb path "/api/status" then handle_status self
  else if String.eqb path "/api/connections" then handle_connections self
  else if String.eqb path "/api/screenshot" then handle_screenshot self query
  else if String.eqb path "/api/system-info" then handle_system_info self
  else mret not_found.

(** [int(self.headers.get('Content-Length', 0))] *)
Definition content_length_of (r : request) : option Z :=
  match headers_get (request_headers r) "Content-Length" with
  | Some v => py_int v
  | None => Some 0
  end.

Definition do_POST (self : APIHandler) : Prog response :=
  parsed_url ← raising (urlparse (path (req self)));
  let path := url_path parsed_url in
  content_length ← or_raise ValueError (content_length_of (req self));
  body_bytes ← raising (rfile_read (req self) content_length);
  request_body ← or_raise UnicodeDecodeError (utf8_decode body_bytes);
  match (if content_length >? 0 then json_loads request_body else Ok (VDict [])) with
  | Err JSONDecodeError => mret invalid_json
  | Err e => Raise e
  | Ok data =>
      if String.eqb path "/api/connect" then handle_connect self data
      else if String.eqb path "/api/disconnect" then handle_disconnect self
      else if String.eqb path "/api/start-hosting" then handle_start_hosting self data
      else if String.eqb path "/api/stop-hosting" then handle_stop_hosting self
      else if String.eqb path "/api/send-mouse-event" then handle_mouse_event self data
      else if String.eqb path "/api/send-keyboard-event" then handle_keyboard_event self data
      else mret not_found
  end.

Definition get_endpoints : list string :=
  ["/api/status"; "/api/connections"; "/api/screenshot"; "/api/system-info"].

Definition post_endpoints : list string :=
  ["/api/connect"; "/api/disconnect"; "/api/start-hosting"; "/api/stop-hosting";
   "/api/send-mouse-event"; "/api/send-keyboard-event"].
End Handler.

(** ** The Connection Manager *)

(** The manager's code is not among the repository's files: only its caller,
    the handler above, is. Its state and operations follow the specification
    (data model, the Peer Session state machine and the operations table). *)
Module ConnectionManager.

(** Modelled from the spec: the manager's [mode], "one of Idle, Hosting,
    ConnectedAsClient". *)
Inductive mode_t : Type := Idle | Hosting | ConnectedAsClient.

#[global] Instance mode_eq_dec : EqDecision mode_t.
Proof. solve_decision. Defined.

(** Modelled from the spec: the states of a Peer Session. *)
Inductive session_state : Type := Handshaking | Active | Closing | Closed.

#[global] Instance session_state_eq_dec : EqDecision session_state.
Proof. solve_decision. Defined.

(** Modelled from the spec: the Peer Session Record ([address],
    [connected_time], [state]), with what the session holds for the manager's
    queries: the latest frame received from the peer and the events queued
    for sending, oldest first. *)
Record session : Type := {
  address : string;
  connected_time : pyval;
  state : session_state;
  latest_frame : option bytes;
  outbound : list input_event
}.

(** Modelled from the spec: the outcome of the handshake that [connect] waits
    for. *)
Inductive dial_outcome : Type :=
| Accepted (connected_time : pyval)
| Rejected
| Unreachable.

(** Modelled from the spec: the capabilities injected at construction and the
    transport: the Frame Source ([None] is [CaptureError]), whether a listen
    address can be bound, how a dialled peer answers, and the clock. *)
Record capabilities : Type := {
  frame_source : Z -> option bytes;
  bind_address : string -> bool;
  dial : string -> string -> dial_outcome;
  clock : pyval
}.

(** Modelled from the spec: the manager's state. [observed] lists the
    qualities the Frame Source was asked for, oldest first. *)
Record t : Type := {
  mode : mode_t;
  host_id : option string;
  remote_address : option string;
  sessions : gmap string session;
  observed : list Z;
  caps : capabilities
}.

(** Modelled from the spec: the manager as created at startup. *)
Definition init (c : capabilities) : t :=
  {| mode := Idle; host_id := None; remote_address := None; sessions := ∅;
     observed := []; caps := c |}.

(** Modelled from the spec: one atomic update of the fields the lock guards. *)
Definition update (s : t) (m : mode_t) (h r : option string)
    (ss : gmap string session) : t :=
  {| mode := m; host_id := h; remote_address := r; sessions := ss;
     observed := observed s; caps := caps s |}.

(** Modelled from the spec: [start_hosting(config)]. *)
Definition start_hosting (listen_address hid : string) (s : t) : result unit * t :=
  match mode s with
  | Idle =>
      if bind_address (caps s) listen_address
      then (Ok tt, update s Hosting (Some hid) None ∅)
      else (Err BindError, s)
  | _ => (Err AlreadyActiveError, s)
  end.

(** Modelled from the spec: [stop_hosting()]. *)
Definition stop_hosting (s : t) : t :=
  match mode s with
  | Hosting => update s Idle None None ∅
  | _ => s
  end.

(** Modelled from the spec: the record of a session whose handshake
    completed at [time]. *)
Definition active_session (addr : string) (time : pyval) : session :=
  {| address := addr; connected_time := time; state := Active;
     latest_frame := None; outbound := [] |}.

(** Modelled from the spec: [connect(address, host_id)]. *)
Definition connect (addr hid : string) (s : t) : result unit * t :=
  match mode s with
  | Idle =>
      match dial (caps s) addr hid with
      | Accepted time =>
          (Ok tt, update s ConnectedAsClient None (Some addr)
                    {[addr := active_session addr time]})
      | Rejected => (Err HandshakeRejectedError, s)
      | Unreachable => (Err ConnectError, s)
      end
  | _ => (Err AlreadyActiveError, s)
  end.

(** Modelled from the spec: [disconnect()]. *)
Definition disconnect (s : t) : t :=
  match mode s with
  | ConnectedAsClient => update s Idle None None ∅
  | _ => s
  end.

(** Modelled from the spec: [is_connected()], derived from [mode]. *)
Definition is_connected (s : t) : bool := bool_decide (mode s = ConnectedAsClient).

(** Modelled from the spec: [is_hosting()], derived from [mode]. *)
Definition is_hosting (s : t) : bool := bool_decide (mode s = Hosting).

(** Modelled from the spec: the frame cached by the single client session. *)
Definition cached_frame (s : t) : option bytes :=
  addr ← remote_address s; ss ← sessions s !! addr; latest_frame ss.

(** Modelled from the spec: [get_remote_screen(quality)]. *)
Definition get_remote_screen (quality : Z) (s : t) : option bytes * t :=
  match mode s with
  | Hosting =>
      (frame_source (caps s) quality,
       {| mode := mode s; host_id := host_id s; remote_address := remote_address s;
          sessions := sessions s; observed := observed s ++ [quality];
          caps := caps s |})
  | ConnectedAsClient => (cached_frame s, s)
  | Idle => (None, s)
  end.

(** Modelled from the spec: an event joins the outbound queue of an Active
    session. *)
Definition enqueue (evt : input_event) (ss : session) : session :=
  match state ss with
  | Active =>
      {| address := address ss; connected_time := connected_time ss;
         state := state ss; latest_frame := latest_frame ss;
         outbound := outbound ss ++ [evt] |}
  | _ => ss
  end.

(** Modelled from the spec: [send_mouse_event(evt)] and
    [send_keyboard_event(evt)]. *)
Definition send_event (evt : input_event) (s : t) : result unit * t :=
  match mode s with
  | Idle => (Err NotConnectedError, s)
  | _ => (Ok tt, update s (mode s) (host_id s) (remote_address s)
                   (enqueue evt <$> sessions s))
  end.

(** Modelled from the spec: what happens to one session. *)
Inductive session_event : Type :=
| HelloExchanged (time : pyval)
| HandshakeFailed
| Stopped
| Flushed
| FrameReceived (payload : bytes).

(** Modelled from the spec: the Peer Session state machine; a cached frame
    is overwritten by a newer one. *)
Definition session_step (ss : session) (ev : session_event) : session :=
  let moved (st : session_state) (time : pyval) :=
    {| address := address ss; connected_time := time; state := st;
       latest_frame := latest_frame ss; outbound := outbound ss |} in
  match state ss, ev with
  | Handshaking, HelloExchanged time => moved Active time
  | Handshaking, HandshakeFailed => moved Closed (connected_time ss)
  | Active, Stopped => moved Closing (connected_time ss)
  | Closing, Flushed => moved Closed (connected_time ss)
  | Active, FrameReceived payload =>
      {| address := address ss; connected_time := connected_time ss;
         state := Active; latest_frame := Some payload; outbound := outbound ss |}
  | _, _ => ss
  end.

(** Modelled from the spec: an inbound transport connection, accepted while
    Hosting, enters [sessions] in state Handshaking. *)
Definition accept (addr : string) (s : t) : t :=
  match mode s, sessions s !! addr with
  | Hosting, None =>
      update s Hosting (host_id s) None
        (<[addr := {| address := addr; connected_time := VNone; state := Handshaking;
                      latest_frame := None; outbound := [] |}]> (sessions s))
  | _, _ => s
  end.

(** Modelled from the spec: a session event reaches the manager; a session
    that ends Closed leaves [sessions], and the client's single session takes
    the client mode with it. *)
Definition deliver (addr : string) (ev : session_event) (s : t) : t :=
  match sessions s !! addr with
  | None => s
  | Some ss =>
      let ss' := session_step ss ev in
      if bool_decide (state ss' = Closed) then
        match mode s with
        | ConnectedAsClient => update s Idle None None ∅
        | _ => update s (mode s) (host_id s) (remote_address s) (delete addr (sessions s))
        end
      else update s (mode s) (host_id s) (remote_address s) (<[addr := ss']> (sessions s))
  end.

(** Modelled from the spec: everything that can happen to the manager: the
    operations of the control surface and the events of the network. *)
Inductive event : Type :=
| DoStartHosting (listen_address hid : string)
| DoStopHosting
| DoConnect (addr hid : string)
| DoDisconnect
| DoGetRemoteScreen (quality : Z)
| DoSend (evt : input_event)
| Accept (addr : string)
| Deliver (addr : string) (ev : session_event).

(** Modelled from the spec: one transition of the manager. *)
Definition step (s : t) (ev : event) : t :=
  match ev with
  | DoStartHosting l h => snd (start_hosting l h s)
  | DoStopHosting => stop_hosting s
  | DoConnect a h => snd (connect a h s)
  | DoDisconnect => disconnect s
  | DoGetRemoteScreen q => snd (get_remote_screen q s)
  | DoSend evt => snd (send_event evt s)
  | Accept a => accept a s
  | Deliver a ev => deliver a ev s
  end.

(** Modelled from the spec: the states the manager can be in. *)
Definition reached (c : capabilities) (evs : list event) : t :=
  fold_left step evs (init c).

(** Modelled from the spec: the invariant of the data model. While Idle
    nothing is set; while Hosting there is no remote address; while
    ConnectedAsClient there is no host id and [sessions] holds the session
    with the remote peer and no other. *)
Definition consistent (s : t) : Prop :=
  match mode s with
  | Idle => sessions s = ∅ /\ remote_address s = None /\ host_id s = None
  | Hosting => remote_address s = None
  | ConnectedAsClient =>
      host_id s = None /\
      exists addr, remote_address s = Some addr /\ dom (sessions s) = {[addr]}
  end.

(** Modelled from the spec: the state right after a change of mode: the
    fields of the other mode are clear, and no session of the other mode is
    left. *)
Definition entered (s : t) : Prop :=
  match mode s with
  | Idle => sessions s = ∅ /\ remote_address s = None /\ host_id s = None
  | Hosting => remote_address s = None /\ sessions s = ∅
  | ConnectedAsClient =>
      host_id s = None /\
      exists addr, remote_address s = Some addr /\ dom (sessions s) = {[addr]}
  end.

(** Modelled from the spec: the snapshot view of [sessions] that the
    connections listing reads: per address, the record as a dict. *)
Definition session_dict (ss : session) : pydict :=
  [("address", VStr (address ss)); ("connected_time", connected_time ss)].

Definition connection_handlers (s : t) : list (pyval * pydict) :=
  (fun item => (VStr item.1, session_dict item.2)) <$> map_to_list (sessions s).

Definition attribute (a : option string) : pyval :=
  match a with
  | Some v => VStr v
  | None => VNone
  end.

(** Modelled from the spec: the manager as the control surface calls it. *)
#[global] Instance manager : Manager t := fun R op s =>
  match op in Op R return result R * t with
  | IsConnected => (Ok (is_connected s), s)
  | IsHosting => (Ok (is_hosting s), s)
  | RemoteAddress => (Ok (attribute (remote_address s)), s)
  | HostId => (Ok (attribute (host_id s)), s)
  | ConnectionHandlers => (Ok (connection_handlers s), s)
  | GetRemoteScreen q => let '(data, s') := get_remote_screen q s in (Ok data, s')
  | Connect a h => connect a h s
  | Disconnect => (Ok tt, disconnect s)
  | StartHosting l h => start_hosting l h s
  | StopHosting => (Ok tt, stop_hosting s)
  | SendMouseEvent evt => send_event evt s
  | SendKeyboardEvent evt => send_event evt s
  | TimeTime => (Ok (clock (caps s)), s)
  end.


End ConnectionManager.

(** ** A reference for the Python library

    Executable definitions of the library functions the handler calls, for
    request text in ASCII (a [string] holds the UTF-8 bytes of a Python
    [str]). They follow CPython 3.12. Not covered: digits and spaces outside
    ASCII in [int], the validation of a bracketed or non-ASCII host in
    [urlparse], the limits on the size of an [int] literal and on the depth
    of a JSON text, and the memory a [read] of many bytes needs. *)
Module CPython.

Definition code (c : ascii) : Z := Z.of_nat (nat_of_ascii c).

Definition chr (z : Z) : ascii := ascii_of_nat (Z.to_nat z).

Definition between (lo hi z : Z) : bool := (lo <=? z) && (z <=? hi).

Definition is_digit (c : ascii) : bool := between 48 57 (code c).

Definition is_alpha (c : ascii) : bool :=
  between 65 90 (code c) || between 97 122 (code c).

(** *** [int(s)] *)

(** The blanks that [int] strips from an ASCII string. *)
Definition is_space (c : ascii) : bool := between 9 13 (code c) || (code c =? 32).

Fixpoint lstrip (blank : ascii -> bool) (s : list ascii) : list ascii :=
  match s with
  | c :: s' => if blank c then lstrip blank s' else s
  | [] => []
  end.

Definition strip (blank : ascii -> bool) (s : list ascii) : list ascii :=
  rev (lstrip blank (rev (lstrip blank s))).

(** Decimal digits; an underscore may stand between two digits. [after_digit]
    tells whether the character before was a digit. *)
Fixpoint digits (acc : Z) (after_digit : bool) (s : list ascii) : option Z :=
  match s with
  | [] => if after_digit then Some acc else None
  | c :: s' =>
      if is_digit c then digits (10 * acc + (code c - 48)) true s'
      else if Ascii.eqb c "_" && after_digit then digits acc false s'
      else None
  end.

Definition int (s : string) : option Z :=
  match strip is_space (list_ascii_of_string s) with
  | c :: s' =>
      if Ascii.eqb c "-" then Z.opp <$> digits 0 false s'
      else if Ascii.eqb c "+" then digits 0 false s'
      else digits 0 false (c :: s')
  | [] => None
  end.

(** *** [f.read(n)] *)

(** The largest index ([sys.maxsize] of a 64-bit build). *)
Definition maxsize : Z := 2 ^ 63 - 1.

Definition read (data : bytes) (n : Z) : result bytes :=
  if n <? -1 then Err ValueError
  else if n =? -1 then Ok data
  else if maxsize <? n then Err OverflowError
  else Ok (take (Z.to_nat n) data).

(** *** [bytes.decode('utf-8')] *)

Definition byte_code (b : byte) : Z := Z.of_N (Byte.to_N b).

(** The range of the second byte of a sequence that starts with [lead]. *)
Definition second_byte (lead z : Z) : bool :=
  if lead =? 224 then between 160 191 z
  else if lead =? 237 then between 128 159 z
  else if lead =? 240 then between 144 191 z
  else if lead =? 244 then between 128 143 z
  else between 128 191 z.

Definition continuation (z : Z) : bool := between 128 191 z.

(** Well-formed UTF-8: no overlong form, no surrogate, nothing past U+10FFFF. *)
Fixpoint utf8_valid (bs : list Z) : bool :=
  match bs with
  | [] => true
  | b0 :: r =>
      if b0 <? 128 then utf8_valid r
      else if between 194 223 b0 then
        match r with
        | b1 :: r1 => continuation b1 && utf8_valid r1
        | _ => false
        end
      else if between 224 239 b0 then
        match r with
        | b1 :: b2 :: r2 => second_byte b0 b1 && continuation b2 && utf8_valid r2
        | _ => false
        end
      else if between 240 244 b0 then
        match r with
        | b1 :: b2 :: b3 :: r3 =>
            second_byte b0 b1 && continuation b2 && continuation b3 && utf8_valid r3
        | _ => false
        end
      else false
  end.

Definition decode (b : bytes) : option string :=
  if utf8_valid (byte_code <$> b) then Some (string_of_list_byte b) else None.

(** [decode('utf-8', 'replace')] on byte values: each ill-formed run (a
    maximal prefix of a sequence, or a lone byte) becomes U+FFFD. *)
Definition replacement : list Z := [239; 191; 189].

Fixpoint decode_replace (bs : list Z) : list Z :=
  match bs with
  | [] => []
  | b0 :: r =>
      if b0 <? 128 then b0 :: decode_replace r
      else if between 194 223 b0 then
        match r with
        | b1 :: r1 =>
            if continuation b1 then b0 :: b1 :: decode_replace r1
            else replacement ++ decode_replace r
        | [] => replacement
        end
      else if between 224 239 b0 then
        match r with
        | b1 :: r1 =>
            if second_byte b0 b1 then
              match r1 with
              | b2 :: r2 =>
                  if continuation b2 then b0 :: b1 :: b2 :: decode_replace r2
                  else replacement ++ decode_replace r1
              | [] => replacement
              end
            else replacement ++ decode_replace r
        | [] => replacement
        end
      else if between 240 244 b0 then
        match r with
        | b1 :: r1 =>
            if second_byte b0 b1 then
              match r1 with
              | b2 :: r2 =>
                  if continuation b2 then
                    match r2 with
                    | b3 :: r3 =>
                        if continuation b3
                        then b0 :: b1 :: b2 :: b3 :: decode_replace r3
                        else replacement ++ decode_replace r2
                    | [] => replacement
                    end
                  else replacement ++ decode_replace r1
              | [] => replacement
              end
            else replacement ++ decode_replace r
        | [] => replacement
        end
      else replacement ++ decode_replace r
  end.

(** *** [urlparse(url)] *)

(** The longest prefix without a character that satisfies [p], and the rest. *)
Fixpoint break (p : ascii -> bool) (s : list ascii) : list ascii * list ascii :=
  match s with
  | [] => ([], [])
  | c :: s' =>
      if p c then ([], s) else let '(a, b) := break p s' in (c :: a, b)
  end.

Definition is_char (z : Z) (c : ascii) : bool := code c =? z.

Definition one_of (zs : list Z) (c : ascii) : bool := existsb (Z.eqb (code c)) zs.

Definition scheme_char (c : ascii) : bool :=
  is_alpha c || is_digit c || one_of [43; 45; 46] c.

(** [url.split(sep, 1)] when [sep] occurs: the text before it and after it. *)
Definition split_once (z : Z) (s : list ascii) : list ascii * list ascii :=
  let '(a, b) := break (is_char z) s in (a, tail b).

Definition split_scheme (url : list ascii) : string * list ascii :=
  match break (is_char 58) url with
  | (c :: pre, _ :: rest) =>
      if is_alpha c && forallb scheme_char (c :: pre)
      then (lower (string_of_list_ascii (c :: pre)), rest)
      else ("", url)
  | _ => ("", url)
  end.

Definition uses_params : list string :=
  [""; "ftp"; "hdl"; "prospero"; "http"; "imap"; "https"; "shttp"; "rtsp";
   "rtspu"; "sip"; "sips"; "mms"; "sftp"; "tel"].

(** [_splitparams]: the path without the parameters of its last segment. *)
Definition drop_params (url : list ascii) : list ascii :=
  let '(last_rev, front_rev) := break (is_char 47) (rev url) in
  rev front_rev ++ fst (break (is_char 59) (rev last_rev)).

Definition urlparse (url : string) : result ParseResult :=
  let url := lstrip (fun c => code c <=? 32) (list_ascii_of_string url) in
  let url := filter (fun c => negb (one_of [9; 10; 13] c)) url in
  let '(scheme, url) := split_scheme url in
  let '(netloc, url) :=
    match url with
    | c1 :: c2 :: rest =>
        if is_char 47 c1 && is_char 47 c2
        then break (one_of [47; 63; 35]) rest
        else ([], url)
    | _ => ([], url)
    end in
  if xorb (existsb (is_char 91) netloc) (existsb (is_char 93) netloc)
  then Err ValueError
  else
    let url := fst (split_once 35 url) in
    let '(url, query) := split_once 63 url in
    let url :=
      if existsb (String.eqb scheme) uses_params then drop_params url else url in
    Ok {| url_path := string_of_list_ascii url;
          url_query := string_of_list_ascii query |}.

(** *** [parse_qs(qs)] *)

Definition hex_digit (c : ascii) : option Z :=
  let z := code c in
  if between 48 57 z then Some (z - 48)
  else if between 65 70 z then Some (z - 55)
  else if between 97 102 z then Some (z - 87)
  else None.

(** [unquote]: each run of ASCII characters has its percent escapes
    replaced by their bytes and is decoded; [pending] holds the bytes of the
    current run. *)
Fixpoint unquote_from (pending : list Z) (s : list ascii) : list Z :=
  match s with
  | [] => decode_replace pending
  | c :: s' =>
      if 128 <=? code c then decode_replace pending ++ code c :: unquote_from [] s'
      else if is_char 37 c then
        match s' with
        | h1 :: h2 :: s'' =>
            match hex_digit h1, hex_digit h2 with
            | Some a, Some b => unquote_from (pending ++ [16 * a + b]) s''
            | _, _ => unquote_from (pending ++ [37]) s'
            end
        | _ => unquote_from (pending ++ [37]) s'
        end
      else unquote_from (pending ++ [code c]) s'
  end.

Definition plus_to_space (c : ascii) : ascii := if is_char 43 c then " "%char else c.

Definition unquote_plus (s : list ascii) : string :=
  string_of_list_ascii (chr <$> unquote_from [] (plus_to_space <$> s)).

(** [s.split(sep)] *)
Fixpoint split_on (z : Z) (s : list ascii) : list (list ascii) :=
  match s with
  | [] => [[]]
  | c :: s' =>
      if is_char z c then [] :: split_on z s'
      else match split_on z s' with
           | field :: fields => (c :: field) :: fields
           | [] => [[c]]
           end
  end.

(** [parse_qsl]: the fields with a value that is not blank. *)
Definition parse_qsl (qs : string) : list (string * string) :=
  omap (fun name_value =>
          let '(name, value) := split_once 61 name_value in
          match value with
          | [] => None
          | _ => Some (unquote_plus name, unquote_plus value)
          end)
       (split_on 38 (list_ascii_of_string qs)).

Definition parse_qs (qs : string) : gmap string (list string) :=
  fold_left (fun (parsed : gmap string (list string)) '(name, value) =>
               <[name := (default [] (parsed !! name) ++ [value])%list]> parsed)
            (parse_qsl qs) ∅.

(** *** [json.loads(s)] *)

Definition json_space (c : ascii) : bool := one_of [32; 9; 10; 13] c.

Definition skip_ws (s : list ascii) : list ascii := lstrip json_space s.

Fixpoint strip_prefix (p s : list ascii) : option (list ascii) :=
  match p, s with
  | [], _ => Some s
  | a :: p', b :: s' => if Ascii.eqb a b then strip_prefix p' s' else None
  | _ :: _, [] => None
  end.

Definition hex4 (a b c d : ascii) : option Z :=
  x ← hex_digit a; y ← hex_digit b; z ← hex_digit c; w ← hex_digit d;
  Some (((16 * x + y) * 16 + z) * 16 + w).

(** The UTF-8 form of a code point (a lone surrogate is written the same way). *)
Definition utf8_encode (cp : Z) : list ascii :=
  chr <$>
    (if cp <? 128 then [cp]
     else if cp <? 2048 then [192 + cp / 64; 128 + cp mod 64]
     else if cp <? 65536 then [224 + cp / 4096; 128 + (cp / 64) mod 64; 128 + cp mod 64]
     else [240 + cp / 262144; 128 + (cp / 4096) mod 64;
           128 + (cp / 64) mod 64; 128 + cp mod 64]).

Definition simple_escape (c : ascii) : option Z :=
  let z := code c in
  if one_of [34; 92; 47] c then Some z
  else if z =? 98 then Some 8
  else if z =? 102 then Some 12
  else if z =? 110 then Some 10
  else if z =? 114 then Some 13
  else if z =? 116 then Some 9
  else None.

(** The text of a string literal after its opening quote: the characters
    it denotes and what follows the closing quote. Control characters are
    refused (strict mode); a high and a low surrogate escape in a row make
    one character. *)
Fixpoint scanstring (acc s : list ascii) : option (list ascii * list ascii) :=
  match s with
  | [] => None
  | c :: s' =>
      if is_char 34 c then Some (acc, s')
      else if is_char 92 c then
        match s' with
        | [] => None
        | e :: s2 =>
            if is_char 117 e then
              match s2 with
              | h1 :: h2 :: h3 :: h4 :: s3 =>
                  match hex4 h1 h2 h3 h4 with
                  | None => None
                  | Some uni =>
                      match s3 with
                      | b :: u :: g1 :: g2 :: g3 :: g4 :: s5 =>
                          if between 55296 56319 uni && is_char 92 b && is_char 117 u then
                            match hex4 g1 g2 g3 g4 with
                            | None => None
                            | Some uni2 =>
                                if between 56320 57343 uni2
                                then scanstring
                                       (acc ++ utf8_encode
                                          (65536 + (uni - 55296) * 1024 + (uni2 - 56320)))
                                       s5
                                else scanstring (acc ++ utf8_encode uni) s3
                            end
                          else scanstring (acc ++ utf8_encode uni) s3
                      | _ => scanstring (acc ++ utf8_encode uni) s3
                      end
                  end
              | _ => None
              end
            else
              match simple_escape e with
              | Some z => scanstring (acc ++ [chr z]) s2
              | None => None
              end
        end
      else if code c <? 32 then None
      else scanstring (acc ++ [c]) s'
  end.

(** The digits at the head of the text, and the rest. *)
Definition span_digits (s : list ascii) : list ascii * list ascii :=
  break (fun c => negb (is_digit c)) s.

Definition decimal (ds : list ascii) : Z :=
  fold_left (fun acc c => 10 * acc + (code c - 48)) ds 0.

(** The fraction at the head of the text, if there is one: a dot and digits. *)
Definition fraction (s : list ascii) : list ascii * list ascii :=
  match s with
  | dot :: d :: r =>
      if is_char 46 dot && is_digit d
      then let '(ds, rest) := span_digits r in (dot :: d :: ds, rest)
      else ([], s)
  | _ => ([], s)
  end.

(** The exponent at the head of the text, if there is one: [e], a sign at
    will, and digits. *)
Definition exponent (s : list ascii) : list ascii * list ascii :=
  match s with
  | e :: r =>
      if one_of [101; 69] e then
        let '(esign, r1) :=
          match r with
          | sg :: t => if one_of [43; 45] sg then ([sg], t) else ([], r)
          | [] => ([], r)
          end in
        match span_digits r1 with
        | ([], _) => ([], s)
        | (ds, rest) => (e :: esign ++ ds, rest)
        end
      else ([], s)
  | [] => ([], s)
  end.

(** A number at the head of the text: an [int], or a [float] when it has a
    fraction or an exponent. *)
Definition number (s : list ascii) : option (pyval * list ascii) :=
  let '(sign, s1) :=
    match s with
    | c :: r => if is_char 45 c then ([c], r) else ([], s)
    | [] => ([], s)
    end in
  match s1 with
  | [] => None
  | c :: r =>
      if between 48 57 (code c) then
        let '(int_part, r1) :=
          if is_char 48 c then ([c], r)
          else let '(ds, rest) := span_digits r in (c :: ds, rest) in
        let '(frac, r2) := fraction r1 in
        let '(exp, r3) := exponent r2 in
        match frac, exp with
        | [], [] =>
            Some (VInt (if sign is [] then decimal int_part else - decimal int_part), r3)
        | _, _ => Some (VFloat (string_of_list_ascii (sign ++ int_part ++ frac ++ exp)), r3)
        end
      else None
  end.

(** [d[key] = v]: a key that is present keeps its place. *)
Fixpoint dict_set (d : pydict) (key : string) (v : pyval) : pydict :=
  match d with
  | [] => [(key, v)]
  | (k, w) :: d' =>
      if String.eqb k key then (k, v) :: d' else (k, w) :: dict_set d' key v
  end.

Definition keyword (word : string) (v : pyval) (s : list ascii) : option (pyval * list ascii) :=
  r ← strip_prefix (list_ascii_of_string word) s; Some (v, r).

(** A JSON value at the head of the text. [n] bounds the number of values
    and delimiters still to read. *)
Fixpoint value (n : nat) (s : list ascii) {struct n} : option (pyval * list ascii) :=
  match n, s with
  | S n', c :: r =>
      if is_char 34 c then
        '(str, r1) ← scanstring [] r; Some (VStr (string_of_list_ascii str), r1)
      else if is_char 123 c then
        match skip_ws r with
        | c1 :: r1 =>
            if is_char 125 c1 then Some (VDict [], r1) else members n' [] (c1 :: r1)
        | [] => None
        end
      else if is_char 91 c then
        match skip_ws r with
        | c1 :: r1 =>
            if is_char 93 c1 then Some (VList [], r1) else elements n' [] (c1 :: r1)
        | [] => None
        end
      else if is_char 110 c then keyword "null" VNone s
      else if is_char 116 c then keyword "true" (VBool true) s
      else if is_char 102 c then keyword "false" (VBool false) s
      else if is_char 78 c then keyword "NaN" (VFloat "NaN") s
      else if is_char 73 c then keyword "Infinity" (VFloat "Infinity") s
      else
        match keyword "-Infinity" (VFloat "-Infinity") s with
        | Some found => Some found
        | None => number s
        end
  | _, _ => None
  end
with elements (n : nat) (acc : list pyval) (s : list ascii) {struct n}
    : option (pyval * list ascii) :=
  match n with
  | S n' =>
      '(v, r) ← value n' s;
      match skip_ws r with
      | c :: r1 =>
          if is_char 93 c then Some (VList (acc ++ [v]), r1)
          else if is_char 44 c then elements n' (acc ++ [v]) (skip_ws r1)
          else None
      | [] => None
      end
  | O => None
  end
with members (n : nat) (acc : pydict) (s : list ascii) {struct n}
    : option (pyval * list ascii) :=
  match n, s with
  | S n', q :: r =>
      if is_char 34 q then
        '(key, r1) ← scanstring [] r;
        match skip_ws r1 with
        | colon :: r2 =>
            if is_char 58 colon then
              '(v, r3) ← value n' (skip_ws r2);
              let acc' := dict_set acc (string_of_list_ascii key) v in
              match skip_ws r3 with
              | c :: r4 =>
                  if is_char 125 c then Some (VDict acc', r4)
                  else if is_char 44 c then members n' acc' (skip_ws r4)
                  else None
              | [] => None
              end
            else None
        | [] => None
        end
      else None
  | _, _ => None
  end.

Definition loads (s : string) : result pyval :=
  let text := list_ascii_of_string s in
  match value (2 * length text + 2) (skip_ws text) with
  | Some (v, r) =>
      match skip_ws r with
      | [] => Ok v
      | _ => Err JSONDecodeError
      end
  | None => Err JSONDecodeError
  end.

End CPython.

(** The reference library. *)
#[global] Instance cpython : PyLib :=
  {| py_int := CPython.int;
     urlparse := CPython.urlparse;
     parse_qs := CPython.parse_qs;
     file_read := CPython.read;
     utf8_decode := CPython.decode;
     json_loads := CPython.loads |}.

(** ** Scenarios

    Concrete requests and manager states to evaluate the handler on. *)
Module Scenario.
Import ConnectionManager.

(** The smallest JPEG stream: start of image, end of image. *)
Definition jpeg : bytes := [xff; xd8; xff; xd9].

Definition caps : capabilities :=
  {| frame_source := fun _ => Some jpeg;
     bind_address := fun _ => true;
     dial := fun _ _ => Accepted (VFloat "1700000000.5");
     clock := VFloat "1700000001.0" |}.

Definition peer : string := "10.0.0.2:5000".

(** Hosting "abc123", nobody connected yet. *)
Definition hosting : t := reached caps [DoStartHosting "0.0.0.0:5000" "abc123"].

(** Connected to [peer] as a client; no frame has arrived. *)
Definition client : t := reached caps [DoConnect peer "abc123"].

(** Connected to [peer] as a client, one frame received. *)
Definition watching : t :=
  reached caps [DoConnect peer "abc123"; Deliver peer (FrameReceived jpeg)].

(** Hosting "abc123" with [peer] connected and its handshake done. *)
Definition serving : t :=
  reached caps [DoStartHosting "0.0.0.0:5000" "abc123"; Accept peer;
                Deliver peer (HelloExchanged (VFloat "1700000002.25"))].


Definition get (target : string) : APIHandler :=
  {| connection_manager := Some the_manager;
     req := {| path := target; request_headers := []; rfile := [] |} |}.

Definition post (target : string) (length : option string) (payload : bytes)
    : APIHandler :=
  {| connection_manager := Some the_manager;
     req := {| path := target;
               request_headers :=
                 match length with
                 | Some n => [("Content-Length", n)]
                 | None => []
                 end;
               rfile := payload |} |}.

(** Modelled from the spec: the bodies of the handlers that the source file
    does not hold. To evaluate the router, each one calls the operation of
    the specification's table that its route is named after and reports
    success; an error of the operation escapes as an exception. *)
Definition field (data : pyval) (key : string) : pyval :=
  match data with
  | VDict d => dict_get d key VNone
  | _ => VNone
  end.

Definition text (v : pyval) : string :=
  match v with
  | VStr s => s
  | _ => ""
  end.

Definition number (v : pyval) : Z :=
  match v with
  | VInt z => z
  | _ => 0
  end.

Definition success : response :=
  send_json_response (VDict [("success", VBool true)]) 200.

Definition with_manager (self : APIHandler) (p : Prog unit) : Prog response :=
  match connection_manager self with
  | None => mret manager_not_available
  | Some _ => _ ← p; mret success
  end.

#[global] Instance handlers : Elided :=
  {| handle_system_info := fun self => with_manager self (mret tt);
     handle_connect := fun self data =>
       with_manager self
         (call (Connect (text (field data "address")) (text (field data "host_id"))));
     handle_disconnect := fun self => with_manager self (call Disconnect);
     handle_start_hosting := fun self data =>
       with_manager self
         (call (StartHosting (text (field data "address"))
                  (text (field data "host_id"))));
     handle_stop_hosting := fun self => with_manager self (call StopHosting);
     handle_mouse_event := fun self data =>
       with_manager self
         (call (SendMouseEvent
                  (MouseEvent (number (field data "x")) (number (field data "y"))
                     (number (field data "buttons")) (number (field data "action")))));
     handle_keyboard_event := fun self data =>
       with_manager self
         (call (SendKeyboardEvent
                  (KeyEvent (number (field data "keycode"))
                     (if String.eqb (text (field data "action")) "up"
                      then KeyUp else KeyDown)))) |}.

End Scenario.

(** * Properties *)

(** ** Programs and their runs *)

Lemma run_calls_only {S A : Type} `{Manager S} (P : forall R, Op R -> Prop)
    (p : Prog A) (s : S) :
  calls_only P p ->
  Forall (fun c => P _ (call_op c)) (calls (run p s)).
Proof.
  revert s. induction p as [a | e | R op k IH]; intros s Hp; simpl.
  - constructor.
  - constructor.
  - destruct Hp as [Hop Hk].
    destruct (perform op s) as [[r | e] s']; simpl.
    + constructor; [exact Hop | apply IH, Hk].
    + constructor; [exact Hop | constructor].
Qed.

Lemma calls_only_weaken {A : Type} (P Q : forall R, Op R -> Prop) (p : Prog A) :
  (forall R (op : Op R), P R op -> Q R op) ->
  calls_only P p -> calls_only Q p.
Proof.
  intros HPQ. induction p as [a | e | R op k IH]; simpl; auto.
  intros [Hop Hk]. split; [auto | intros r; apply IH, Hk].
Qed.

Lemma silent_run {S A : Type} `{Manager S} (p : Prog A) (s : S) :
  silent p -> calls (run p s) = [] /\ final (run p s) = s.
Proof. destruct p; simpl; intros Hp; [auto | auto | destruct Hp]. Qed.

(** ** The screenshot handler *)

Section Screenshot.
Context `{PyLib}.

(** The handler's calls, whatever the request: [is_connected], then
    [get_remote_screen] with the quality it computed. *)
Lemma handle_screenshot_calls (self : APIHandler) (query : gmap string (list string)) :
  calls_only
    (fun R op =>
       attribute_read op = false /\
       forall quality, passed_quality op = Some quality ->
                       quality = screenshot_quality query)
    (handle_screenshot self query).
Proof.
  unfold handle_screenshot. destruct (connection_manager self); simpl; [| exact I].
  split; [split; [reflexivity | discriminate] |].
  intros [|]; simpl; [| exact I].
  split; [split; [reflexivity | intros q [= <-]; reflexivity] |].
  intros [[| b data] |]; exact I.
Qed.

Lemma screenshot_quality_range (query : gmap string (list string)) :
  1 <= screenshot_quality query <= 100.
Proof.
  unfold screenshot_quality.
  destruct (query !! "quality") as [[| q qs] |]; [lia | | lia].
  destruct (py_int q); lia.
Qed.

Lemma screenshot_quality_integer (query : gmap string (list string)) q qs n :
  query !! "quality" = Some (q :: qs) -> py_int q = Some n ->
  screenshot_quality query = Z.max 1 (Z.min 100 n).
Proof. intros Hq Hn. unfold screenshot_quality. by rewrite Hq, Hn. Qed.

Lemma screenshot_quality_default (query : gmap string (list string)) :
  query !! "quality" = None \/ query !! "quality" = Some [] \/
  (exists q qs, query !! "quality" = Some (q :: qs) /\ py_int q = None) ->
  screenshot_quality query = 70.
Proof.
  unfold screenshot_quality.
  intros [-> | [-> | (q & qs & -> & ->)]]; reflexivity.
Qed.

(** The run of the handler when the manager says it is connected. *)
Lemma handle_screenshot_connected {S : Type} `{Manager S} (self : APIHandler)
    (query : gmap string (list string)) (s s1 : S) :
  connection_manager self = Some the_manager ->
  perform IsConnected s = (Ok true, s1) ->
  calls (run (handle_screenshot self query) s) =
    [Called IsConnected; Called (GetRemoteScreen (screenshot_quality query))].
Proof.
  intros Hm Hc. unfold handle_screenshot. rewrite Hm. simpl. rewrite Hc. simpl.
  destruct (perform (GetRemoteScreen (screenshot_quality query)) s1)
    as [[[[| b data] |] | e] s2]; reflexivity.
Qed.

(** The whole run when the manager is connected and answers the screen. *)
Lemma handle_screenshot_run {S : Type} `{Manager S} (self : APIHandler)
    (query : gmap string (list string)) (s s1 s2 : S) (data : option bytes) :
  connection_manager self = Some the_manager ->
  perform IsConnected s = (Ok true, s1) ->
  perform (GetRemoteScreen (screenshot_quality query)) s1 = (Ok data, s2) ->
  run (handle_screenshot self query) s =
    {| returned := Ok (match data with
                       | Some (b :: d) => image_response (b :: d)
                       | _ => unable_to_get_screenshot
                       end);
       final := s2;
       calls := [Called IsConnected;
                 Called (GetRemoteScreen (screenshot_quality query))] |}.
Proof.
  intros Hm Hc Hg. unfold handle_screenshot. rewrite Hm. simpl. rewrite Hc. simpl.
  rewrite Hg. destruct data as [[| b d] |]; reflexivity.
Qed.

(** The whole run when the manager is not connected. *)
Lemma handle_screenshot_run_disconnected {S : Type} `{Manager S} (self : APIHandler)
    (query : gmap string (list string)) (s s1 : S) :
  connection_manager self = Some the_manager ->
  perform IsConnected s = (Ok false, s1) ->
  run (handle_screenshot self query) s =
    {| returned := Ok unable_to_get_screenshot; final := s1;
       calls := [Called IsConnected] |}.
Proof.
  intros Hm Hc. unfold handle_screenshot. rewrite Hm. simpl. by rewrite Hc.
Qed.

End Screenshot.

(** ** Claims about the screenshot path *)

Section ScreenshotClaims.
Context `{PyLib} {S : Type} `{Manager S}.

(** C1: for a screenshot request whose [quality] parameter is an integer [n]
    of any value, every quality the handler passes to [get_remote_screen] is
    [n] clamped, hence within 1..100 (150 becomes 100); and when the manager
    reports a connection, [get_remote_screen] is called with that value. *)
Theorem screenshot_quality_is_clamped (self : APIHandler)
    (query : gmap string (list string)) (q : string) (qs : list string)
    (n : Z) (s : S) :
  query !! "quality" = Some (q :: qs) ->
  py_int q = Some n ->
  Forall (fun c => forall quality,
            passed_quality (call_op c) = Some quality ->
            quality = Z.max 1 (Z.min 100 n) /\ 1 <= quality <= 100)
         (calls (run (handle_screenshot self query) s))
  /\ (forall s1,
        connection_manager self = Some the_manager ->
        perform IsConnected s = (Ok true, s1) ->
        calls (run (handle_screenshot self query) s) =
          [Called IsConnected; Called (GetRemoteScreen (Z.max 1 (Z.min 100 n)))]).
Proof.
  intros Hq Hn. pose proof (screenshot_quality_integer query q qs n Hq Hn) as Hval.
  split.
  - eapply Forall_impl.
    + apply (run_calls_only _ _ s (handle_screenshot_calls self query)).
    + intros c [_ Hc] quality Hp. simpl in Hc. rewrite (Hc quality Hp), Hval. lia.
  - intros s1 Hm Hc. rewrite <- Hval. by apply handle_screenshot_connected with s1.
Qed.

(** C8: when the [quality] parameter is absent, has no value, or does not
    parse as an integer, the request is served as if the parameter were not
    there: no quality other than the default 70 reaches [get_remote_screen],
    and a connected manager is asked for the screen at quality 70. *)
Theorem screenshot_quality_defaults_to_70 (self : APIHandler)
    (query : gmap string (list string)) (s : S) :
  query !! "quality" = None \/ query !! "quality" = Some [] \/
  (exists q qs, query !! "quality" = Some (q :: qs) /\ py_int q = None) ->
  handle_screenshot self query = handle_screenshot self (delete "quality" query)
  /\ Forall (fun c => forall quality,
               passed_quality (call_op c) = Some quality -> quality = 70)
            (calls (run (handle_screenshot self query) s))
  /\ (forall s1,
        connection_manager self = Some the_manager ->
        perform IsConnected s = (Ok true, s1) ->
        calls (run (handle_screenshot self query) s) =
          [Called IsConnected; Called (GetRemoteScreen 70)]).
Proof.
  intros Hq. pose proof (screenshot_quality_default query Hq) as Hval.
  assert (screenshot_quality (delete "quality" query) = 70) as Hdel.
  { apply screenshot_quality_default. left. apply lookup_delete_eq. }
  split; [| split].
  - unfold handle_screenshot. by rewrite Hval, Hdel.
  - eapply Forall_impl.
    + apply (run_calls_only _ _ s (handle_screenshot_calls self query)).
    + intros c [_ Hc] quality Hp. simpl in Hc. by rewrite (Hc quality Hp).
  - intros s1 Hm Hc. rewrite <- Hval. by apply handle_screenshot_connected with s1.
Qed.

(** C3: when [get_remote_screen] answers [None] or empty bytes, the handler
    responds with the error "Unable to get screenshot" (status 400), not an
    image; on every path it asks the manager only [is_connected] and
    [get_remote_screen], and reads none of its attributes. *)
Theorem screenshot_error_without_frame (self : APIHandler)
    (query : gmap string (list string)) (s s1 s2 : S) (data : option bytes) :
  connection_manager self = Some the_manager ->
  perform IsConnected s = (Ok true, s1) ->
  perform (GetRemoteScreen (screenshot_quality query)) s1 = (Ok data, s2) ->
  truthy data = false ->
  returned (run (handle_screenshot self query) s) = Ok unable_to_get_screenshot
  /\ status unable_to_get_screenshot = 400
  /\ final (run (handle_screenshot self query) s) = s2
  /\ Forall (fun c => attribute_read (call_op c) = false)
            (calls (run (handle_screenshot self query) s))
  /\ calls_only (fun R op => screen_query op = true /\ attribute_read op = false)
                (handle_screenshot self query).
Proof.
  intros Hm Hc Hg Hd.
  assert (calls_only (fun R op => attribute_read op = false)
            (handle_screenshot self query)) as Hattr.
  { eapply calls_only_weaken; [| apply handle_screenshot_calls].
    by intros R op [Ha _]. }
  rewrite (handle_screenshot_run self query s s1 s2 data Hm Hc Hg) at 1 2.
  split; [| split; [reflexivity | split; [| split]]].
  - simpl. destruct data as [[| b data] |]; [reflexivity | discriminate | reflexivity].
  - reflexivity.
  - by apply (run_calls_only (fun R op => attribute_read op = false)).
  - unfold handle_screenshot. rewrite Hm. simpl.
    split; [by split |].
    intros [|]; simpl; [| exact I].
    split; [by split |].
    intros [[| b d] |]; exact I.
Qed.

End ScreenshotClaims.

(** ** The router *)

(** A string that differs from every member of a list of literals. *)
Ltac not_listed :=
  unfold get_endpoints, post_endpoints; simpl; rewrite ?not_elem_of_cons; repeat split; try discriminate; apply not_elem_of_nil.

Section Router.
Context `{PyLib} `{Elided}.

Ltac known_or_not Hnot :=
  repeat match goal with
         | |- context [String.eqb ?a ?b] =>
             let Heq := fresh "Heq" in
             destruct (String.eqb_spec a b) as [Heq | _];
             [exfalso; apply Hnot; rewrite Heq, !elem_of_cons; tauto |]
         end.

Lemma do_GET_unknown (self : APIHandler) (parsed : ParseResult) :
  urlparse (path (req self)) = Ok parsed ->
  url_path parsed ∉ get_endpoints ->
  do_GET self = Ret not_found.
Proof.
  intros Hu Hnot. unfold do_GET. rewrite Hu. simpl.
  unfold get_endpoints in Hnot. known_or_not Hnot. reflexivity.
Qed.

(** What [do_POST] does with the body before it looks at the path. *)
Lemma do_POST_unknown (self : APIHandler) (parsed : ParseResult) (n : Z)
    (body_bytes : bytes) (request_body : string) :
  urlparse (path (req self)) = Ok parsed ->
  url_path parsed ∉ post_endpoints ->
  content_length_of (req self) = Some n ->
  rfile_read (req self) n = Ok body_bytes ->
  utf8_decode body_bytes = Some request_body ->
  do_POST self =
    match (if n >? 0 then json_loads request_body else Ok (VDict [])) with
    | Ok _ => Ret not_found
    | Err JSONDecodeError => Ret invalid_json
    | Err e => Raise e
    end.
Proof.
  intros Hu Hnot Hn Hr Hb. unfold do_POST. rewrite Hu. simpl. rewrite Hn. simpl.
  rewrite Hr. simpl. rewrite Hb. simpl.
  destruct (if n >? 0 then json_loads request_body else Ok (VDict [])) as [data | e];
    [| reflexivity].
  unfold post_endpoints in Hnot. known_or_not Hnot. reflexivity.
Qed.

Lemma do_POST_unknown_silent (self : APIHandler) (parsed : ParseResult) :
  urlparse (path (req self)) = Ok parsed ->
  url_path parsed ∉ post_endpoints ->
  silent (do_POST self).
Proof.
  intros Hu Hnot.
  destruct (content_length_of (req self)) as [n |] eqn:Hn;
    [| unfold do_POST; rewrite Hu; simpl; rewrite Hn; exact I].
  destruct (rfile_read (req self) n) as [body_bytes | e] eqn:Hr;
    [| unfold do_POST; rewrite Hu; simpl; rewrite Hn; simpl; rewrite Hr; exact I].
  destruct (utf8_decode body_bytes) as [body |] eqn:Hb.
  - rewrite (do_POST_unknown self parsed n body_bytes body Hu Hnot Hn Hr Hb).
    destruct (if n >? 0 then json_loads body else Ok (VDict [])) as [data | []];
      exact I.
  - unfold do_POST. rewrite Hu. simpl. rewrite Hn. simpl. rewrite Hr. simpl.
    rewrite Hb. exact I.
Qed.

(** X9: when the target is parsed, [Content-Length] is a positive integer,
    the body of that length is read and decodes as UTF-8, and [json.loads]
    raises [JSONDecodeError] on it, the request is answered with "Invalid
    JSON" before the path is looked at: no handler runs. *)
Lemma invalid_json_is_rejected (self : APIHandler) (parsed : ParseResult) (n : Z)
    (body_bytes : bytes) (request_body : string) :
  urlparse (path (req self)) = Ok parsed ->
  content_length_of (req self) = Some n ->
  n > 0 ->
  rfile_read (req self) n = Ok body_bytes ->
  utf8_decode body_bytes = Some request_body ->
  json_loads request_body = Err JSONDecodeError ->
  do_POST self = Ret invalid_json /\ status invalid_json = 400.
Proof.
  intros Hu Hn Hpos Hr Hb Hj. split; [| reflexivity].
  unfold do_POST. rewrite Hu. simpl. rewrite Hn. simpl.
  rewrite Hr. simpl. rewrite Hb. simpl. destruct (Z.gtb_spec n 0) as [_ | Hle]; [| lia].
  by rewrite Hj.
Qed.

(** C10, as the code has it, for a request whose target [urlparse] accepts:
    a GET to a path that is no GET endpoint gets "Not found" (404) and calls
    nothing; a POST to a path that is no POST endpoint calls nothing either,
    whatever becomes of it, and when its [Content-Length] is absent or an
    integer [n], the body of that length is read and decodes as UTF-8, it
    gets "Not found" (404) if [n] is not positive or [json.loads] returns a
    value, and "Invalid JSON" (400) if [n] is positive and [json.loads]
    raises [JSONDecodeError]. *)
Theorem unknown_endpoint (self : APIHandler) (parsed : ParseResult) :
  urlparse (path (req self)) = Ok parsed ->
  (url_path parsed ∉ get_endpoints ->
   do_GET self = Ret not_found /\ silent (do_GET self))
  /\ (url_path parsed ∉ post_endpoints ->
      silent (do_POST self)
      /\ forall n body_bytes request_body,
           content_length_of (req self) = Some n ->
           rfile_read (req self) n = Ok body_bytes ->
           utf8_decode body_bytes = Some request_body ->
           (n <= 0 -> do_POST self = Ret not_found)
           /\ (forall data, n > 0 -> json_loads request_body = Ok data ->
                            do_POST self = Ret not_found)
           /\ (n > 0 -> json_loads request_body = Err JSONDecodeError ->
               do_POST self = Ret invalid_json))
  /\ status not_found = 404 /\ status invalid_json = 400.
Proof.
  intros Hu. split; [| split; [| split; reflexivity]].
  - intros Hnot. rewrite (do_GET_unknown self parsed Hu Hnot). by split.
  - intros Hnot. split; [by apply do_POST_unknown_silent with parsed |].
    intros n body_bytes body Hn Hr Hb.
    rewrite (do_POST_unknown self parsed n body_bytes body Hu Hnot Hn Hr Hb).
    split; [| split].
    + intros Hle. destruct (Z.gtb_spec n 0); [lia | reflexivity].
    + intros data Hpos Hj. destruct (Z.gtb_spec n 0); [| lia]. by rewrite Hj.
    + intros Hpos Hj. destruct (Z.gtb_spec n 0); [| lia]. by rewrite Hj.
Qed.

End Router.

(** ** Claims about the router *)

(** The scenario of C10 at work: a POST to an unknown path with no body. *)
Lemma unknown_endpoint_witness :
  do_POST (Scenario.post "/api/unknown" None []) = Ret not_found
  /\ do_GET (Scenario.get "/api/connect") = Ret not_found.
Proof.
  pose proof (unknown_endpoint (Scenario.post "/api/unknown" None [])
                {| url_path := "/api/unknown"; url_query := "" |} eq_refl)
    as (_ & Hpost & _).
  pose proof (unknown_endpoint (Scenario.get "/api/connect")
                {| url_path := "/api/connect"; url_query := "" |} eq_refl)
    as (Hget & _).
  split.
  - assert ("/api/unknown" ∉ post_endpoints) as Hnot by not_listed.
    destruct (Hpost Hnot) as [_ Hbody].
    apply (Hbody 0 [] "" eq_refl eq_refl eq_refl). lia.
  - apply Hget. not_listed.
Defined.

(** C10 as stated fails: a POST to an unknown path whose one-byte body is an
    opening brace is answered "Invalid JSON" with status 400, not "Not
    found" with status 404. *)
Lemma unknown_endpoint_counterexample :
  urlparse "/api/unknown" = Ok {| url_path := "/api/unknown"; url_query := "" |}
  /\ ("/api/unknown" ∉ post_endpoints)
  /\ (forall E : Elided,
        do_POST (Scenario.post "/api/unknown" (Some "1") [x7b]) = Ret invalid_json)
  /\ status invalid_json = 400
  /\ invalid_json <> not_found.
Proof.
  split; [reflexivity |]. split; [not_listed |]. split; [| split].
  - intros E. reflexivity.
  - reflexivity.
  - discriminate.
Qed.

(** C9 fails on a body that is not UTF-8: the one byte 0xFF, announced by
    [Content-Length: 1], makes [decode] raise before the [try] block is
    entered, so the request gets the exception and not "Invalid JSON"; the
    handlers are not reached either. *)
Theorem undecodable_body_escapes (E : Elided) :
  do_POST (Scenario.post "/api/connect" (Some "1") [xff]) = Raise UnicodeDecodeError
  /\ run (do_POST (Scenario.post "/api/connect" (Some "1") [xff])) Scenario.client
     = {| returned := Err UnicodeDecodeError; final := Scenario.client; calls := [] |}.
Proof. split; reflexivity. Qed.

(** ** Witnesses for the screenshot path *)

(** C1 at quality 150, asked of a client that has a frame: the manager sees
    quality 100. *)
Lemma screenshot_quality_is_clamped_witness :
  calls (run (handle_screenshot (Scenario.get "/api/screenshot?quality=150")
                (parse_qs "quality=150")) Scenario.watching)
  = [Called IsConnected; Called (GetRemoteScreen 100)].
Proof.
  assert (parse_qs "quality=150" !! "quality" = Some ["150"]) as Hq by reflexivity.
  assert (py_int "150" = Some 150) as Hn by reflexivity.
  apply (proj2 (screenshot_quality_is_clamped
                  (Scenario.get "/api/screenshot?quality=150")
                  (parse_qs "quality=150") "150" [] 150 Scenario.watching
                  Hq Hn) Scenario.watching); reflexivity.
Defined.

(** C8 at [quality=high]: the manager sees quality 70. *)
Lemma screenshot_quality_defaults_to_70_witness :
  calls (run (handle_screenshot (Scenario.get "/api/screenshot?quality=high")
                (parse_qs "quality=high")) Scenario.watching)
  = [Called IsConnected; Called (GetRemoteScreen 70)].
Proof.
  assert (exists q qs, parse_qs "quality=high" !! "quality" = Some (q :: qs)
                       /\ py_int q = None) as Hq.
  { exists "high", []. split; reflexivity. }
  apply (proj2 (proj2 (screenshot_quality_defaults_to_70
                         (Scenario.get "/api/screenshot?quality=high")
                         (parse_qs "quality=high") Scenario.watching
                         (or_intror (or_intror Hq)))) Scenario.watching);
    reflexivity.
Defined.

(** C3 at a client that has received no frame yet. *)
Lemma screenshot_error_without_frame_witness :
  returned (run (handle_screenshot (Scenario.get "/api/screenshot") ∅) Scenario.client)
  = Ok unable_to_get_screenshot.
Proof.
  apply (screenshot_error_without_frame (Scenario.get "/api/screenshot") ∅
           Scenario.client Scenario.client Scenario.client None);
    reflexivity.
Defined.

(** ** The connections listing *)

Section Connections.
Context {S : Type} `{Manager S}.

(** C4, as the code has it: the listing asks [is_hosting] first. When the
    answer is true it has one entry per item of [connection_handlers], in
    order, made of the address and the record's [connected_time] (0 when
    the record has none); when the answer is false it is empty, and
    [connection_handlers] is not read. *)
Theorem connections_listing (self : APIHandler) (s s1 : S) (hosting : bool) :
  connection_manager self = Some the_manager ->
  perform IsHosting s = (Ok hosting, s1) ->
  (hosting = false ->
   run (handle_connections self) s =
     {| returned := Ok (send_json_response (VDict [("connections", VList [])]) 200);
        final := s1; calls := [Called IsHosting] |})
  /\ (hosting = true ->
      forall items s2,
        perform ConnectionHandlers s1 = (Ok items, s2) ->
        run (handle_connections self) s =
          {| returned :=
               Ok (send_json_response
                     (VDict [("connections", VList (connection_entry <$> items))]) 200);
             final := s2; calls := [Called IsHosting; Called ConnectionHandlers] |}
        /\ length (connection_entry <$> items) = length items
        /\ forall i addr handler,
             items !! i = Some (addr, handler) ->
             (connection_entry <$> items) !! i =
               Some (VDict [("address", addr);
                            ("connected_time",
                             dict_get handler "connected_time" (VInt 0))])).
Proof.
  intros Hm Hh. split.
  - intros ->. unfold handle_connections. rewrite Hm. simpl. by rewrite Hh.
  - intros -> items s2 Hitems. split; [| split].
    + unfold handle_connections. rewrite Hm. simpl. rewrite Hh. simpl.
      by rewrite Hitems.
    + apply length_fmap.
    + intros i addr handler Hi. by rewrite list_lookup_fmap, Hi.
Qed.

End Connections.

(** C4 at a manager that hosts one active session. *)
Lemma connections_listing_witness :
  returned (run (handle_connections (Scenario.get "/api/connections")) Scenario.serving)
  = Ok (send_json_response
          (VDict [("connections",
                   VList [VDict [("address", VStr Scenario.peer);
                                 ("connected_time", VFloat "1700000002.25")]])]) 200).
Proof.
  destruct (connections_listing (Scenario.get "/api/connections")
              Scenario.serving Scenario.serving true eq_refl eq_refl) as [_ Hlist].
  destruct (Hlist eq_refl _ Scenario.serving eq_refl) as [Hrun _].
  by rewrite Hrun.
Defined.

(** C4 as stated fails: a client holds one session, and its listing is
    empty. *)
Lemma connections_listing_counterexample :
  ConnectionManager.mode Scenario.client = ConnectionManager.ConnectedAsClient
  /\ size (ConnectionManager.sessions Scenario.client) = 1%nat
  /\ returned (run (handle_connections (Scenario.get "/api/connections"))
                 Scenario.client)
     = Ok (send_json_response (VDict [("connections", VList [])]) 200).
Proof. split; [| split]; reflexivity. Qed.

(** ** The Connection Manager *)

Module ManagerFacts.
Import ConnectionManager.

Lemma perform_is_connected (s : t) :
  perform IsConnected s = (Ok (is_connected s), s).
Proof. reflexivity. Qed.

Lemma perform_get_remote_screen (quality : Z) (s : t) :
  perform (GetRemoteScreen quality) s =
    (Ok (fst (get_remote_screen quality s)), snd (get_remote_screen quality s)).
Proof.
  unfold perform, manager. by destruct (get_remote_screen quality s).
Qed.

Lemma consistent_init (c : capabilities) : consistent (init c).
Proof. by repeat split. Qed.

Lemma entered_consistent (s : t) : entered s -> consistent s.
Proof. unfold entered, consistent. destruct (mode s); tauto. Qed.

Ltac by_mode s :=
  let m := fresh "m" in
  let Hm := fresh "Hm" in
  destruct s as [m h r ss o c]; simpl in *; destruct m; simpl in *.

Lemma consistent_deliver (addr : string) (ev : session_event) (s : t) :
  consistent s -> consistent (deliver addr ev s).
Proof.
  unfold deliver. destruct (sessions s !! addr) as [sn |] eqn:Hs; [| done].
  case_bool_decide.
  - unfold consistent. by_mode s; try tauto.
    intros [-> _]. by rewrite lookup_empty in Hs.
  - unfold consistent. by_mode s; try tauto.
    { intros [-> _]. by rewrite lookup_empty in Hs. }
    intros [Hh (a & Hr & Hd)]. split; [done |]. exists a. split; [done |].
    rewrite dom_insert_L, Hd.
    assert (addr ∈ dom ss) as Hin by (apply elem_of_dom; eauto).
    rewrite Hd in Hin. apply elem_of_singleton in Hin. subst addr.
    apply union_idemp_L.
Qed.

Lemma consistent_step (s : t) (ev : event) : consistent s -> consistent (step s ev).
Proof.
  destruct ev as [l hid | | a hid | | q | evt | a | a sev]; simpl.
  - unfold start_hosting, consistent. by_mode s; try tauto.
    destruct (bind_address c l); simpl; tauto.
  - unfold stop_hosting, consistent. by_mode s; tauto.
  - unfold connect, consistent. by_mode s; try tauto.
    destruct (dial c a hid); simpl; try tauto.
    intros _. split; [done |]. exists a. split; [done |]. apply dom_singleton_L.
  - unfold disconnect, consistent. by_mode s; tauto.
  - unfold get_remote_screen, consistent. by_mode s; tauto.
  - unfold send_event, consistent. by_mode s; try tauto.
    intros [Hh (a & Hr & Hd)]. split; [done |]. exists a. split; [done |].
    by rewrite dom_fmap_L.
  - unfold accept, consistent. by_mode s; try tauto.
    destruct (ss !! a); simpl; tauto.
  - apply consistent_deliver.
Qed.

Lemma consistent_run (evs : list event) (s : t) :
  consistent s -> consistent (fold_left step evs s).
Proof.
  revert s. induction evs as [| ev evs IH]; intros s Hs; simpl; [done |].
  apply IH, consistent_step, Hs.
Qed.

Lemma consistent_reached (c : capabilities) (evs : list event) :
  consistent (reached c evs).
Proof. apply consistent_run, consistent_init. Qed.

(** A step that changes the mode leaves the fields of the other mode clear:
    mode and fields change in the same step. *)
Lemma mode_change_enters (s : t) (ev : event) :
  mode (step s ev) <> mode s -> entered (step s ev).
Proof.
  destruct ev as [l hid | | a hid | | q | evt | a | a sev]; simpl.
  - unfold start_hosting, entered. by_mode s; try tauto.
    destruct (bind_address c l); simpl; tauto.
  - unfold stop_hosting, entered. by_mode s; tauto.
  - unfold connect, entered. by_mode s; try tauto.
    destruct (dial c a hid); simpl; try tauto.
    intros _. split; [done |]. exists a. split; [done |]. apply dom_singleton_L.
  - unfold disconnect, entered. by_mode s; tauto.
  - unfold get_remote_screen. by_mode s; tauto.
  - unfold send_event. by_mode s; tauto.
  - unfold accept. by_mode s; try tauto. destruct (ss !! a); simpl; tauto.
  - unfold deliver. destruct (sessions s !! a) as [sn |]; [| tauto].
    case_bool_decide; unfold entered; by_mode s; tauto.
Qed.

(** C6: in every state the manager reaches, [mode] is one of Idle, Hosting
    and ConnectedAsClient; while Idle, [sessions] is empty and
    [remote_address] and [host_id] are unset; and any event that changes the
    mode yields, in that one step, a state where the fields of the other
    mode are clear (no remote address and no session on entering Hosting,
    no host id and only the peer's session on entering ConnectedAsClient,
    nothing on returning to Idle). *)
Theorem manager_invariant (c : capabilities) (evs : list event) :
  (mode (reached c evs) = Idle \/ mode (reached c evs) = Hosting \/
   mode (reached c evs) = ConnectedAsClient)
  /\ (mode (reached c evs) = Idle ->
      sessions (reached c evs) = ∅ /\ remote_address (reached c evs) = None /\
      host_id (reached c evs) = None)
  /\ (mode (reached c evs) = Hosting -> remote_address (reached c evs) = None)
  /\ (mode (reached c evs) = ConnectedAsClient ->
      host_id (reached c evs) = None /\ size (sessions (reached c evs)) = 1%nat)
  /\ forall ev, mode (step (reached c evs) ev) <> mode (reached c evs) ->
                entered (step (reached c evs) ev).
Proof.
  pose proof (consistent_reached c evs) as Hc. unfold consistent in Hc.
  split; [destruct (mode (reached c evs)); tauto |].
  split; [by intros Hm; rewrite Hm in Hc |].
  split; [by intros Hm; rewrite Hm in Hc |].
  split; [| apply mode_change_enters].
  intros Hm. rewrite Hm in Hc. destruct Hc as [Hh (a & _ & Hd)].
  split; [done |]. by rewrite <- size_dom, Hd, size_singleton.
Qed.

(** C5: when the mode is not Idle (in particular right after a
    [start_hosting] that succeeded), [start_hosting] fails with
    [AlreadyActiveError] and changes nothing: the mode, and the whole state,
    stay as they were. *)
Theorem start_hosting_already_active (s : t) (listen_address hid : string) :
  mode s <> Idle \/
  (exists s0 listen_address0 hid0,
     start_hosting listen_address0 hid0 s0 = (Ok tt, s)) ->
  start_hosting listen_address hid s = (Err AlreadyActiveError, s)
  /\ mode (snd (start_hosting listen_address hid s)) = mode s.
Proof.
  intros Hactive.
  assert (mode s <> Idle) as Hmode.
  { destruct Hactive as [Hm | (s0 & l0 & h0 & Hs0)]; [done |].
    unfold start_hosting in Hs0.
    destruct (mode s0); try discriminate.
    destruct (bind_address (caps s0) l0); [| discriminate].
    injection Hs0 as <-. discriminate. }
  unfold start_hosting. destruct (mode s) eqn:Hm; [done | |]; by rewrite ?Hm.
Qed.

(** C5 at the state reached by one successful [start_hosting]. *)
Lemma start_hosting_already_active_witness :
  start_hosting "0.0.0.0:5001" "def456" Scenario.hosting
  = (Err AlreadyActiveError, Scenario.hosting)
  /\ mode (snd (start_hosting "0.0.0.0:5001" "def456" Scenario.hosting)) = Hosting.
Proof.
  apply (start_hosting_already_active Scenario.hosting "0.0.0.0:5001" "def456").
  right. exists (init Scenario.caps), "0.0.0.0:5000", "abc123". reflexivity.
Defined.

(** C7: after a [connect] that succeeds, [is_connected] is true and
    [remote_address] is the address dialled; after [disconnect], at once or
    after any further events, [is_connected] is false and [remote_address]
    is unset. *)
Theorem connect_then_disconnect (s s1 : t) (addr hid : string) (evs : list event) :
  connect addr hid s = (Ok tt, s1) ->
  is_connected s1 = true /\ remote_address s1 = Some addr
  /\ is_connected (disconnect s1) = false /\ remote_address (disconnect s1) = None
  /\ is_connected (disconnect (fold_left step evs s1)) = false
  /\ remote_address (disconnect (fold_left step evs s1)) = None.
Proof.
  intros Hc.
  assert (mode s1 = ConnectedAsClient /\ remote_address s1 = Some addr /\
          consistent s1) as (Hm & Hr & Hs1).
  { unfold connect in Hc. destruct (mode s); try discriminate.
    destruct (dial (caps s) addr hid); try discriminate.
    injection Hc as <-. repeat split. exists addr. split; [done |].
    apply dom_singleton_L. }
  assert (forall s', consistent s' ->
            is_connected (disconnect s') = false /\
            remote_address (disconnect s') = None) as Hoff.
  { intros s' Hs'. unfold disconnect, is_connected, consistent in *.
    destruct s' as [m h r ss o c]; simpl in *. destruct m; simpl; tauto. }
  split; [unfold is_connected; by rewrite Hm |]. split; [done |].
  destruct (Hoff s1 Hs1) as [H1 H2].
  destruct (Hoff _ (consistent_run evs s1 Hs1)) as [H3 H4].
  tauto.
Qed.

(** C7 at the idle manager, dialling the peer. *)
Lemma connect_then_disconnect_witness :
  is_connected Scenario.client = true
  /\ remote_address Scenario.client = Some Scenario.peer
  /\ is_connected (disconnect Scenario.client) = false
  /\ remote_address (disconnect Scenario.client) = None
  /\ is_connected (disconnect Scenario.watching) = false
  /\ remote_address (disconnect Scenario.watching) = None.
Proof.
  apply (connect_then_disconnect (init Scenario.caps) Scenario.client
           Scenario.peer "abc123"
           [Deliver Scenario.peer (FrameReceived Scenario.jpeg)]).
  reflexivity.
Defined.



End ManagerFacts.

(** * Further properties of the handler *)

(** ** Runs of programs that do not raise *)

Lemma run_answers {S A : Type} `{Manager S} (p : Prog A) (s : S) :
  answering S ->
  calls_only (fun R op => command op = false) p ->
  no_raise p ->
  exists a, returned (run p s) = Ok a.
Proof.
  intros Hans. revert s. induction p as [a | e | R op k IH]; intros s Hq Hn; simpl.
  - by exists a.
  - destruct Hn.
  - destruct Hq as [Hop Hk]. destruct (Hans R op s Hop) as (r & s' & Hr).
    rewrite Hr. simpl. apply IH; [apply Hk | apply Hn].
Qed.

Lemma manager_answering : answering ConnectionManager.t.
Proof.
  intros R op s Hq. destruct op; try discriminate Hq; simpl; eauto.
  unfold perform, ConnectionManager.manager.
  destruct (ConnectionManager.get_remote_screen quality s); eauto.
Qed.

(** ** The screenshot handler, further *)

Section ScreenshotFurther.
Context `{PyLib} {S : Type} `{Manager S}.

(** X1: a screenshot request is answered with status 200 only with an image:
    the manager said it was connected, [get_remote_screen] returned bytes
    that are not empty, and the response carries exactly these bytes, with
    their number as [Content-Length]. *)
Theorem screenshot_image_only_with_frame (self : APIHandler)
    (query : gmap string (list string)) (s : S) (r : response) :
  returned (run (handle_screenshot self query) s) = Ok r ->
  status r = 200 ->
  exists s1 s2 b data,
    perform IsConnected s = (Ok true, s1)
    /\ perform (GetRemoteScreen (screenshot_quality query)) s1
       = (Ok (Some (b :: data)), s2)
    /\ final (run (handle_screenshot self query) s) = s2
    /\ content r = BytesBody (b :: data)
    /\ headers_get (headers r) "Content-Type" = Some "image/jpeg"
    /\ headers_get (headers r) "Content-Length" = Some (pretty (length (b :: data))).
Proof.
  unfold handle_screenshot. destruct (connection_manager self); simpl.
  - destruct (perform IsConnected s) as [[[|] | e] s1] eqn:Hc; simpl.
    + destruct (perform (GetRemoteScreen (screenshot_quality query)) s1)
        as [[[[| b data] |] | e] s2] eqn:Hg; simpl;
        intros [= <-] Hst; try discriminate Hst.
      exists s1, s2, b, data. repeat split; assumption.
    + intros [= <-] Hst. discriminate Hst.
    + discriminate.
  - intros [= <-] Hst. discriminate Hst.
Qed.

(** X2: without a manager a screenshot request makes no call. With one it
    calls [is_connected] first, and then [get_remote_screen], once and at
    the quality of the request, exactly when [is_connected] answered true;
    it makes no other call. *)
Theorem screenshot_calls_in_order (self : APIHandler)
    (query : gmap string (list string)) (s : S) :
  (connection_manager self = None ->
   calls (run (handle_screenshot self query) s) = [])
  /\ (connection_manager self = Some the_manager ->
      (forall s1, perform IsConnected s = (Ok true, s1) ->
                  calls (run (handle_screenshot self query) s)
                  = [Called IsConnected;
                     Called (GetRemoteScreen (screenshot_quality query))])
      /\ ((forall s1, perform IsConnected s <> (Ok true, s1)) ->
          calls (run (handle_screenshot self query) s) = [Called IsConnected])).
Proof.
  split.
  - intros Hm. unfold handle_screenshot. by rewrite Hm.
  - intros Hm. split.
    + intros s1 Hc. by apply handle_screenshot_connected with s1.
    + intros Hnot. unfold handle_screenshot. rewrite Hm. simpl.
      destruct (perform IsConnected s) as [[[|] | e] s1] eqn:Hc; simpl;
        [by destruct (Hnot s1) | reflexivity | reflexivity].
Qed.

(** X3: the screenshot handler reads nothing of the query but the first
    value of [quality]: two queries that agree on it are served alike,
    whatever further values or other parameters they hold. *)
Theorem screenshot_reads_first_quality_only (self : APIHandler)
    (query query' : gmap string (list string)) :
  query !! "quality" ≫= head = query' !! "quality" ≫= head ->
  handle_screenshot self query = handle_screenshot self query'.
Proof.
  intros Hq.
  assert (screenshot_quality query = screenshot_quality query') as Heq.
  { unfold screenshot_quality.
    destruct (query !! "quality") as [[| q qs] |],
             (query' !! "quality") as [[| q' qs'] |];
      simpl in Hq; try discriminate Hq; try reflexivity.
    by injection Hq as ->. }
  unfold handle_screenshot. by rewrite Heq.
Qed.

(** X4: a quality between 1 and 100 reaches [get_remote_screen] unchanged;
    a smaller one reaches it as 1 and a larger one as 100. *)
Theorem screenshot_quality_in_range_unchanged (self : APIHandler)
    (query : gmap string (list string)) (q : string) (qs : list string)
    (n : Z) (s s1 : S) :
  connection_manager self = Some the_manager ->
  perform IsConnected s = (Ok true, s1) ->
  query !! "quality" = Some (q :: qs) ->
  py_int q = Some n ->
  calls (run (handle_screenshot self query) s)
  = [Called IsConnected;
     Called (GetRemoteScreen (if n <? 1 then 1 else if 100 <? n then 100 else n))].
Proof.
  intros Hm Hc Hq Hn.
  rewrite (handle_screenshot_connected self query s s1 Hm Hc).
  rewrite (screenshot_quality_integer query q qs n Hq Hn).
  destruct (Z.ltb_spec n 1), (Z.ltb_spec 100 n); repeat f_equal; lia.
Qed.

(** X11: the preflight answer and every JSON response allow any origin,
    but the image that answers a screenshot request carries no
    [Access-Control-Allow-Origin] header. *)
Theorem cors_header_on_json_not_on_image (self : APIHandler)
    (query : gmap string (list string)) (s : S) (r : response) :
  returned (run (handle_screenshot self query) s) = Ok r ->
  headers_get (headers r) "Access-Control-Allow-Origin"
  = (if status r =? 200 then None else Some "*")
  /\ headers_get (headers do_OPTIONS) "Access-Control-Allow-Origin" = Some "*"
  /\ forall data st,
       headers_get (headers (send_json_response data st))
         "Access-Control-Allow-Origin" = Some "*".
Proof.
  intros Hr. split; [| split; reflexivity].
  revert Hr. unfold handle_screenshot. destruct (connection_manager self); simpl.
  - destruct (perform IsConnected s) as [[[|] | e] s1]; simpl.
    + destruct (perform (GetRemoteScreen (screenshot_quality query)) s1)
        as [[[[| b data] |] | e] s2]; simpl; intros [= <-]; reflexivity.
    + intros [= <-]. reflexivity.
    + discriminate.
  - intros [= <-]. reflexivity.
Qed.

End ScreenshotFurther.

(** X1 at a client that has received a frame. *)
Lemma screenshot_image_only_with_frame_witness :
  exists s1 s2 b data,
    perform IsConnected Scenario.watching = (Ok true, s1)
    /\ perform (GetRemoteScreen (screenshot_quality ∅)) s1 = (Ok (Some (b :: data)), s2)
    /\ final (run (handle_screenshot (Scenario.get "/api/screenshot") ∅)
                Scenario.watching) = s2
    /\ content (image_response Scenario.jpeg) = BytesBody (b :: data)
    /\ headers_get (headers (image_response Scenario.jpeg)) "Content-Type"
       = Some "image/jpeg"
    /\ headers_get (headers (image_response Scenario.jpeg)) "Content-Length"
       = Some (pretty (length (b :: data))).
Proof.
  apply (screenshot_image_only_with_frame (Scenario.get "/api/screenshot") ∅
           Scenario.watching (image_response Scenario.jpeg));
    reflexivity.
Defined.

(** X3 at a query with a second quality and another parameter. *)
Lemma screenshot_reads_first_quality_only_witness :
  handle_screenshot (Scenario.get "/api/screenshot")
    (parse_qs "quality=30&quality=90&format=png")
  = handle_screenshot (Scenario.get "/api/screenshot") (parse_qs "quality=30").
Proof.
  apply (screenshot_reads_first_quality_only (Scenario.get "/api/screenshot")
           (parse_qs "quality=30&quality=90&format=png") (parse_qs "quality=30")).
  reflexivity.
Defined.

(** X4 at quality 30, asked of a client. *)
Lemma screenshot_quality_in_range_unchanged_witness :
  calls (run (handle_screenshot (Scenario.get "/api/screenshot?quality=30")
                (parse_qs "quality=30")) Scenario.watching)
  = [Called IsConnected; Called (GetRemoteScreen 30)].
Proof.
  assert (parse_qs "quality=30" !! "quality" = Some ["30"]) as Hq by reflexivity.
  assert (py_int "30" = Some 30) as Hn by reflexivity.
  apply (screenshot_quality_in_range_unchanged
           (Scenario.get "/api/screenshot?quality=30") (parse_qs "quality=30")
           "30" [] 30 Scenario.watching Scenario.watching eq_refl eq_refl Hq Hn).
Defined.

(** X11 at a client that has received a frame: the image has no header for
    the origin. *)
Lemma cors_header_on_json_not_on_image_witness :
  headers_get (headers (image_response Scenario.jpeg)) "Access-Control-Allow-Origin"
  = None.
Proof.
  apply (cors_header_on_json_not_on_image (Scenario.get "/api/screenshot") ∅
           Scenario.watching (image_response Scenario.jpeg)).
  reflexivity.
Defined.

(** ** The GET handlers together *)

Section GetHandlers.
Context `{PyLib} `{Elided}.

(** What every call of the handlers in the file is: a query, with a quality
    between 1 and 100 if it asks for the screen. *)
Definition bounded_query (R : Type) (op : Op R) : Prop :=
  command op = false /\
  forall quality, passed_quality op = Some quality -> 1 <= quality <= 100.

Ltac plain_query :=
  split; [split; [reflexivity | intros ? Hq; discriminate Hq] |].

Lemma handle_status_queries (self : APIHandler) :
  calls_only bounded_query (handle_status self).
Proof.
  unfold handle_status. destruct (connection_manager self); simpl; [| exact I].
  repeat (plain_query; intros ?). exact I.
Qed.

Lemma handle_connections_queries (self : APIHandler) :
  calls_only bounded_query (handle_connections self).
Proof.
  unfold handle_connections. destruct (connection_manager self); simpl; [| exact I].
  plain_query. intros [|]; simpl; [| exact I].
  plain_query. intros items. exact I.
Qed.

Lemma handle_screenshot_queries (self : APIHandler)
    (query : gmap string (list string)) :
  calls_only bounded_query (handle_screenshot self query).
Proof.
  unfold handle_screenshot. destruct (connection_manager self); simpl; [| exact I].
  plain_query. intros [|]; simpl; [| exact I].
  split; [split; [reflexivity |] |].
  - intros quality [= <-]. apply screenshot_quality_range.
  - intros [[| b d] |]; exact I.
Qed.

Lemma get_handlers_no_raise (self : APIHandler) (query : gmap string (list string)) :
  no_raise (handle_status self) /\ no_raise (handle_connections self)
  /\ no_raise (handle_screenshot self query).
Proof.
  split; [| split].
  - unfold handle_status. destruct (connection_manager self); simpl; [| exact I].
    intros ? ? ? ? ?. exact I.
  - unfold handle_connections. destruct (connection_manager self); simpl; [| exact I].
    intros [|]; simpl; [intros ?; exact I | exact I].
  - unfold handle_screenshot. destruct (connection_manager self); simpl; [| exact I].
    intros [|]; simpl; [| exact I]. intros [[| b d] |]; exact I.
Qed.

(** X5: a handler built without a Connection Manager answers the three GET
    routes whose code is in the file with status 500, "Connection manager
    not available", whatever the query. *)
Theorem get_without_manager (self : APIHandler) (parsed : ParseResult) :
  connection_manager self = None ->
  urlparse (path (req self)) = Ok parsed ->
  url_path parsed ∈ ["/api/status"; "/api/connections"; "/api/screenshot"] ->
  do_GET self = Ret manager_not_available
  /\ status manager_not_available = 500
  /\ content manager_not_available
     = JsonBody (VDict [("error", VStr "Connection manager not available")]).
Proof.
  intros Hm Hu Hin. split; [| split; reflexivity].
  unfold do_GET. rewrite Hu. simpl.
  rewrite !elem_of_cons in Hin.
  destruct Hin as [-> | [-> | [-> | Hin]]]; simpl.
  - unfold handle_status. by rewrite Hm.
  - unfold handle_connections. by rewrite Hm.
  - unfold handle_screenshot. by rewrite Hm.
  - by apply elem_of_nil in Hin.
Qed.

(** X6: no GET request to a route whose code is in the file makes the
    handler issue a command (connect, disconnect, start or stop hosting,
    send an event) or ask for the screen at a quality outside 1..100. *)
Theorem get_issues_no_command (self : APIHandler) (parsed : ParseResult) :
  urlparse (path (req self)) = Ok parsed ->
  url_path parsed <> "/api/system-info" ->
  calls_only (fun R op =>
                command op = false /\
                forall quality, passed_quality op = Some quality ->
                                1 <= quality <= 100)
             (do_GET self).
Proof.
  intros Hu Hne. unfold do_GET. rewrite Hu. simpl.
  destruct (String.eqb_spec (url_path parsed) "/api/status");
    [apply handle_status_queries |].
  destruct (String.eqb_spec (url_path parsed) "/api/connections");
    [apply handle_connections_queries |].
  destruct (String.eqb_spec (url_path parsed) "/api/screenshot");
    [apply handle_screenshot_queries |].
  destruct (String.eqb_spec (url_path parsed) "/api/system-info"); [done | exact I].
Qed.

(** X7: when the manager's queries answer, a GET request to a route whose
    code is in the file always ends in a response: no path and no query
    string makes the handler raise. *)
Theorem get_always_responds {S : Type} `{Manager S} (self : APIHandler)
    (parsed : ParseResult) (s : S) :
  answering S ->
  urlparse (path (req self)) = Ok parsed ->
  url_path parsed <> "/api/system-info" ->
  exists r, returned (run (do_GET self) s) = Ok r
            /\ (status r = 200 \/ status r = 400 \/ status r = 404 \/ status r = 500).
Proof.
  intros Hans Hu Hne.
  assert (no_raise (do_GET self)) as Hn.
  { destruct (get_handlers_no_raise self (parse_qs (url_query parsed)))
      as (Hstatus & Hconns & Hshot).
    unfold do_GET. rewrite Hu. simpl.
    repeat match goal with
           | |- context [String.eqb ?a ?b] => destruct (String.eqb_spec a b)
           end; try assumption; [done | exact I]. }
  assert (calls_only (fun R op => command op = false) (do_GET self)) as Hq.
  { eapply calls_only_weaken; [| apply (get_issues_no_command self parsed Hu Hne)].
    by intros R op [Hc _]. }
  destruct (run_answers (do_GET self) s Hans Hq Hn) as [r Hr].
  exists r. split; [exact Hr |].
  revert Hr. unfold do_GET. rewrite Hu. simpl.
  repeat match goal with
         | |- context [String.eqb ?a ?b] => destruct (String.eqb_spec a b)
         end; try done.
  - unfold handle_status. destruct (connection_manager self); simpl.
    + repeat match goal with
             | |- context [perform ?op ?st] =>
                 destruct (perform op st) as [[? | ?] ?]; simpl; try discriminate
             end.
      intros [= <-]. by left.
    + intros [= <-]. by repeat right.
  - unfold handle_connections. destruct (connection_manager self); simpl.
    + destruct (perform IsHosting s) as [[[|] | ?] s1]; simpl; try discriminate.
      * destruct (perform ConnectionHandlers s1) as [[? | ?] ?]; simpl;
          try discriminate.
        intros [= <-]. by left.
      * intros [= <-]. by left.
    + intros [= <-]. by repeat right.
  - unfold handle_screenshot. destruct (connection_manager self); simpl.
    + destruct (perform IsConnected s) as [[[|] | ?] s1]; simpl; try discriminate.
      * destruct (perform (GetRemoteScreen _) s1) as [[[[| b d] |] | ?] ?]; simpl;
          try discriminate; intros [= <-]; auto.
      * intros [= <-]. auto.
    + intros [= <-]. by repeat right.
  - intros [= <-]. auto.
Qed.

End GetHandlers.

(** X5 at a handler without a manager, asked for a screenshot. *)
Lemma get_without_manager_witness :
  do_GET {| connection_manager := None;
            req := {| path := "/api/screenshot?quality=50";
                      request_headers := []; rfile := [] |} |}
  = Ret manager_not_available
  /\ status manager_not_available = 500
  /\ content manager_not_available
     = JsonBody (VDict [("error", VStr "Connection manager not available")]).
Proof.
  apply (get_without_manager
           {| connection_manager := None;
              req := {| path := "/api/screenshot?quality=50";
                        request_headers := []; rfile := [] |} |}
           {| url_path := "/api/screenshot"; url_query := "quality=50" |});
    [reflexivity | reflexivity |].
  rewrite !elem_of_cons. tauto.
Defined.

(** X6 at a screenshot request for quality 500. *)
Lemma get_issues_no_command_witness :
  calls_only (fun R op =>
                command op = false /\
                forall quality, passed_quality op = Some quality ->
                                1 <= quality <= 100)
             (do_GET (Scenario.get "/api/screenshot?quality=500")).
Proof.
  apply (get_issues_no_command (Scenario.get "/api/screenshot?quality=500")
           {| url_path := "/api/screenshot"; url_query := "quality=500" |});
    [reflexivity | discriminate].
Defined.

(** X7 at a hosting manager, asked for a screenshot with a quality that is
    no number. *)
Lemma get_always_responds_witness :
  exists r,
    returned (run (do_GET (Scenario.get "/api/screenshot?quality=NaN"))
                Scenario.hosting) = Ok r
    /\ (status r = 200 \/ status r = 400 \/ status r = 404 \/ status r = 500).
Proof.
  apply (get_always_responds (Scenario.get "/api/screenshot?quality=NaN")
           {| url_path := "/api/screenshot"; url_query := "quality=NaN" |}
           Scenario.hosting manager_answering);
    [reflexivity | discriminate].
Defined.

(** ** The POST router, further *)

Section PostFurther.
Context `{PyLib} `{Elided}.

(** X8: [do_POST] reaches the Connection Manager only through a handler of
    a POST endpoint, and only after the request was read in full: the
    [Content-Length] is an integer, the body of that length is read and
    decodes as UTF-8 and, when the length is positive, is JSON. *)
Theorem post_calls_only_after_parse (self : APIHandler) :
  ~ silent (do_POST self) ->
  exists parsed n body_bytes request_body data,
    urlparse (path (req self)) = Ok parsed
    /\ url_path parsed ∈ post_endpoints
    /\ content_length_of (req self) = Some n
    /\ rfile_read (req self) n = Ok body_bytes
    /\ utf8_decode body_bytes = Some request_body
    /\ (if n >? 0 then json_loads request_body else Ok (VDict [])) = Ok data.
Proof.
  intros Hcalls.
  destruct (urlparse (path (req self))) as [parsed | e] eqn:Hu;
    [| exfalso; apply Hcalls; unfold do_POST; rewrite Hu; exact I].
  destruct (content_length_of (req self)) as [n |] eqn:Hn;
    [| exfalso; apply Hcalls; unfold do_POST; rewrite Hu; simpl; rewrite Hn; exact I].
  destruct (rfile_read (req self) n) as [body_bytes | e] eqn:Hr;
    [| exfalso; apply Hcalls; unfold do_POST; rewrite Hu; simpl; rewrite Hn; simpl;
       rewrite Hr; exact I].
  destruct (utf8_decode body_bytes) as [body |] eqn:Hb;
    [| exfalso; apply Hcalls; unfold do_POST; rewrite Hu; simpl; rewrite Hn; simpl;
       rewrite Hr; simpl; rewrite Hb; exact I].
  destruct (decide (url_path parsed ∈ post_endpoints)) as [Hin | Hnot];
    [| exfalso; apply Hcalls; by apply do_POST_unknown_silent with parsed].
  destruct (if n >? 0 then json_loads body else Ok (VDict [])) as [data | e] eqn:Hj.
  - exists parsed, n, body_bytes, body, data. by repeat split.
  - exfalso. apply Hcalls. unfold do_POST. rewrite Hu. simpl. rewrite Hn. simpl.
    rewrite Hr. simpl. rewrite Hb. simpl. rewrite Hj. destruct e; exact I.
Qed.

(** X10: a [Content-Length] header that [int] rejects makes [do_POST] raise
    [ValueError]: no response is sent, the body is not read and no handler
    runs. *)
Theorem bad_content_length_escapes (self : APIHandler) (parsed : ParseResult)
    (v : string) :
  urlparse (path (req self)) = Ok parsed ->
  headers_get (request_headers (req self)) "Content-Length" = Some v ->
  py_int v = None ->
  do_POST self = Raise ValueError
  /\ forall (S : Type) (M : Manager S) (s : S),
       run (do_POST self) s
       = {| returned := Err ValueError; final := s; calls := [] |}.
Proof.
  intros Hu Hh Hv.
  assert (do_POST self = Raise ValueError) as Hraise.
  { unfold do_POST. rewrite Hu. simpl. unfold content_length_of. by rewrite Hh, Hv. }
  split; [exact Hraise |]. intros S M s. by rewrite Hraise.
Qed.

End PostFurther.

(** X8 at a POST to /api/disconnect without a body. *)
Lemma post_calls_only_after_parse_witness :
  exists parsed n body_bytes request_body data,
    urlparse "/api/disconnect" = Ok parsed
    /\ url_path parsed ∈ post_endpoints
    /\ content_length_of (req (Scenario.post "/api/disconnect" None [])) = Some n
    /\ rfile_read (req (Scenario.post "/api/disconnect" None [])) n = Ok body_bytes
    /\ utf8_decode body_bytes = Some request_body
    /\ (if n >? 0 then json_loads request_body else Ok (VDict [])) = Ok data.
Proof.
  apply (post_calls_only_after_parse (Scenario.post "/api/disconnect" None [])).
  intros Hsilent. exact Hsilent.
Defined.

(** X9 at a POST to /api/disconnect whose body is one opening brace. *)
Lemma invalid_json_is_rejected_witness :
  do_POST (Scenario.post "/api/disconnect" (Some "1") [x7b]) = Ret invalid_json
  /\ status invalid_json = 400.
Proof.
  apply (invalid_json_is_rejected (Scenario.post "/api/disconnect" (Some "1") [x7b])
           {| url_path := "/api/disconnect"; url_query := "" |} 1 [x7b] "{");
    [reflexivity | reflexivity | lia | reflexivity | reflexivity | reflexivity].
Defined.

(** X10 at a POST whose Content-Length is the word "ten". *)
Lemma bad_content_length_escapes_witness :
  do_POST (Scenario.post "/api/connect" (Some "ten") [x7b]) = Raise ValueError
  /\ forall (S : Type) (M : Manager S) (s : S),
       run (do_POST (Scenario.post "/api/connect" (Some "ten") [x7b])) s
       = {| returned := Err ValueError; final := s; calls := [] |}.
Proof.
  apply (bad_content_length_escapes
           (Scenario.post "/api/connect" (Some "ten") [x7b])
           {| url_path := "/api/connect"; url_query := "" |} "ten");
    reflexivity.
Defined.
